(** * The library menu program (main.cpp)

    A shallow embedding of the interactive book-library program and the
    verification of its specification.

    - [std::string] is [string] (a sequence of 8-bit characters),
      [operator==] on strings is [String.eqb].
    - [std::cin] is a finite character buffer with the two stream state bits
      the program can observe ([eofbit], [failbit]); whatever the user will
      ever type is the buffer, followed by end of file.
    - The terminal is a transcript: the texts written to [std::cout] and the
      screen clears, in order.
    - [int] is a 32-bit and [size_t] a 64-bit integer; both are [Z] with the
      conversions written out.
    - Recursion and loops of the program that have no bound in the source
      ([getValidatedString], the two [while (true)] loops of [Library::run])
      take a budget of unfoldings; [Starved] is the outcome of a run that is
      still going when the budget is used up. *)

From Stdlib Require Import List ZArith Lia Bool Arith Ascii String.
From Stdlib Require Import DecimalString DecimalN.
Import ListNotations.
Local Open Scope string_scope.
Local Open Scope list_scope.
Local Open Scope Z_scope.

(** ** Outcomes of calls *)

Inductive Outcome (A : Type) : Type :=
| Ret (a : A)
| Starved
| Undefined.

Arguments Ret {A} a.
Arguments Starved {A}.
Arguments Undefined {A}.

Definition bind {A B : Type} (m : Outcome A) (k : A -> Outcome B) : Outcome B :=
  match m with
  | Ret a => k a
  | Starved => Starved
  | Undefined => Undefined
  end.

Notation "'let*' x ':=' m 'in' k" := (bind m (fun x => k))
  (at level 10, x pattern, m at level 200, k at level 200).

(** ** Characters and numerals *)

Definition newline : ascii := "010"%char.

Definition endl : string := String newline "".

(** [std::isspace] in the "C" locale. *)
Definition isspace (c : ascii) : bool :=
  let n := nat_of_ascii c in
  (n =? 32)%nat || ((9 <=? n)%nat && (n <=? 13)%nat).

Definition isdigit (c : ascii) : bool :=
  let n := nat_of_ascii c in
  (48 <=? n)%nat && (n <=? 57)%nat.

Definition digit_value (c : ascii) : Z :=
  Z.of_nat (nat_of_ascii c) - 48.

(** [operator<<] for an unsigned integer: its decimal numeral. *)
Definition decimal (z : Z) : string :=
  NilZero.string_of_uint (N.to_uint (Z.to_N z)).

(** [int] and [size_t]. *)
Definition INT_MIN : Z := - 2 ^ 31.
Definition INT_MAX : Z := 2 ^ 31 - 1.
Definition SIZE_MOD : Z := 2 ^ 64.

(** Conversion of an integer to [size_t], and [size_t] addition. *)
Definition to_size_t (z : Z) : Z := z mod SIZE_MOD.
Definition size_add (a b : Z) : Z := (a + b) mod SIZE_MOD.

(** [vector::size()]. *)
Definition size {A : Type} (v : list A) : Z := Z.of_nat (List.length v).

(** ** std::regex, for the constructs the program's patterns use

    ECMAScript grammar, default flags: line anchors, bracket expressions of
    characters and ranges, [+] and [{n}]. *)

Module Regex.

Inductive regex : Type :=
| Bol
| Eol
| Bracket (ranges : list (ascii * ascii))
| Seq (r1 r2 : regex)
| Plus (r : regex)
| Times (n : nat) (r : regex).

Definition in_range (c : ascii) (rg : ascii * ascii) : bool :=
  (Ascii.leb (fst rg) c && Ascii.leb c (snd rg))%char.

Definition in_bracket (ranges : list (ascii * ascii)) (c : ascii) : bool :=
  existsb (in_range c) ranges.

(** [r+] by iteration of [once], one match of [r]: an iteration that takes
    nothing off the subject ends the loop. *)
Fixpoint plus_loop (once : string -> list string) (budget : nat) (s : string)
    : list string :=
  match budget with
  | O => []
  | S budget' =>
      once s ++ flat_map
                  (fun t => if (String.length t <? String.length s)%nat
                            then plus_loop once budget' t else [])
                  (once s)
  end.

(** [r{n}] *)
Fixpoint times_loop (once : string -> list string) (n : nat) (ss : list string)
    : list string :=
  match n with
  | O => ss
  | S n' => times_loop once n' (flat_map once ss)
  end.

(** [ends whole r s]: [s] is what is left of a subject of length [whole];
    the result lists what can be left after [r] has matched at the front of
    [s], one entry per way of matching. *)
Fixpoint ends (whole : nat) (r : regex) (s : string) : list string :=
  match r with
  | Bol => if (String.length s =? whole)%nat then [s] else []
  | Eol => match s with
           | EmptyString => [s]
           | String _ _ => []
           end
  | Bracket ranges =>
      match s with
      | EmptyString => []
      | String c t => if in_bracket ranges c then [t] else []
      end
  | Seq r1 r2 => flat_map (ends whole r2) (ends whole r1 s)
  | Plus r1 => plus_loop (ends whole r1) (S (String.length s)) s
  | Times n r1 => times_loop (ends whole r1) n [s]
  end.

(** [std::regex_match]: the pattern has to match the whole subject. *)
Definition regex_match (s : string) (r : regex) : bool :=
  existsb (fun t => String.eqb t "") (ends (String.length s) r s).

(** The pattern text a [regex] value is built from. *)
Definition show_range (rg : ascii * ascii) : string :=
  if Ascii.eqb (fst rg) (snd rg) then String (fst rg) ""
  else String (fst rg) (String "-" (String (snd rg) "")).

Fixpoint pattern_of (r : regex) : string :=
  match r with
  | Bol => "^"
  | Eol => "$"
  | Bracket ranges => "[" ++ String.concat "" (map show_range ranges) ++ "]"
  | Seq r1 r2 => pattern_of r1 ++ pattern_of r2
  | Plus r1 => pattern_of r1 ++ "+"
  | Times n r1 =>
      pattern_of r1 ++ "{" ++ NilZero.string_of_uint (Nat.to_uint n) ++ "}"
  end.

End Regex.

Import Regex.

(** [regex("^[a-zA-Z0-9 ]+$")] *)
Definition name_pattern : regex :=
  Seq Bol
    (Seq (Plus (Bracket [("a", "z"); ("A", "Z"); ("0", "9"); (" ", " ")]%char))
       Eol).

(** [regex("^[0-9]{4}$")] *)
Definition year_pattern : regex :=
  Seq Bol (Seq (Times 4 (Bracket [("0", "9")]%char)) Eol).

(** ** std::cin *)

Record istream : Type := mkIstream {
  pending : string;
  eofbit : bool;
  failbit : bool
}.

Definition good (s : istream) : bool := negb (eofbit s) && negb (failbit s).

Definition setfail (s : istream) : istream :=
  mkIstream (pending s) (eofbit s) true.

(** [cin.clear()] *)
Definition clear (s : istream) : istream := mkIstream (pending s) false false.

(** [cin.ignore()]: drops one character. *)
Definition ignore (s : istream) : istream :=
  if good s then
    match pending s with
    | EmptyString => mkIstream "" true false
    | String _ t => mkIstream t false false
    end
  else setfail s.

(** [cin.get()]: reads one character; the program drops it. *)
Definition get (s : istream) : istream :=
  if good s then
    match pending s with
    | EmptyString => mkIstream "" true true
    | String _ t => mkIstream t false false
    end
  else setfail s.

(** The characters up to the next newline; [Some rest] when the newline was
    there (it is taken off the buffer and dropped), [None] at end of file. *)
Fixpoint take_line (buf : string) : string * option string :=
  match buf with
  | EmptyString => ("", None)
  | String c t =>
      if Ascii.eqb c newline then ("", Some t)
      else let (line, rest) := take_line t in (String c line, rest)
  end.

(** [getline(cin, input)] into an empty [input]. *)
Definition getline (s : istream) : string * istream :=
  if good s then
    match take_line (pending s) with
    | (line, Some rest) => (line, mkIstream rest false false)
    | (line, None) => (line, mkIstream "" true (String.eqb line ""))
    end
  else ("", setfail s).

Fixpoint skipws (buf : string) : string :=
  match buf with
  | EmptyString => ""
  | String c t => if isspace c then skipws t else buf
  end.

Definition read_sign (buf : string) : bool * string :=
  match buf with
  | EmptyString => (false, "")
  | String c t =>
      if Ascii.eqb c "-" then (true, t)
      else if Ascii.eqb c "+" then (false, t)
      else (false, buf)
  end.

Fixpoint read_digits (buf : string) : string * string :=
  match buf with
  | EmptyString => ("", "")
  | String c t =>
      if isdigit c then let (ds, rest) := read_digits t in (String c ds, rest)
      else ("", buf)
  end.

Fixpoint numeral_value (acc : Z) (digits : string) : Z :=
  match digits with
  | EmptyString => acc
  | String c t => numeral_value (10 * acc + digit_value c) t
  end.

(** [cin >> choice] for [int choice]; [old] is the value of [choice] before.
    White space is skipped, then a sign and the digits that follow are taken
    off the buffer.  Without a digit the value is 0, outside [int] it is the
    nearest bound, and [failbit] is set in both cases. *)
Definition extract_int (old : Z) (s : istream) : Z * istream :=
  if good s then
    match skipws (pending s) with
    | EmptyString => (old, mkIstream "" true true)
    | String _ _ as buf =>
        let (negative, buf1) := read_sign buf in
        let (digits, rest) := read_digits buf1 in
        let eof := String.eqb rest "" in
        match digits with
        | EmptyString => (0, mkIstream rest eof true)
        | String _ _ =>
            let v := if negative then - numeral_value 0 digits
                     else numeral_value 0 digits in
            if v <? INT_MIN then (INT_MIN, mkIstream rest eof true)
            else if INT_MAX <? v then (INT_MAX, mkIstream rest eof true)
            else (v, mkIstream rest eof false)
        end
    end
  else (old, setfail s).

(** ** The terminal *)

Inductive Output : Type :=
| Clear
| Text (s : string).

Record Console : Type := mkConsole {
  cin : istream;
  cout : list Output
}.

(** [system("clear")] *)
Definition clearScreen (con : Console) : Console :=
  mkConsole (cin con) (cout con ++ [Clear]).

(** One [cout << ... ;] statement. *)
Definition print (s : string) (con : Console) : Console :=
  mkConsole (cin con) (cout con ++ [Text s]).

Definition with_cin (s : istream) (con : Console) : Console :=
  mkConsole s (cout con).

Definition invalid_input : string := "Invalid input. Please try again." ++ endl.

(** ** getValidatedString *)

Fixpoint getValidatedString (budget : nat) (prompt : string) (re : regex)
    (con : Console) : Outcome (string * Console) :=
  match budget with
  | O => Starved
  | S budget' =>
      let con := print prompt con in
      let (input, s) := getline (cin con) in
      let con := with_cin s con in
      if regex_match input re then Ret (input, con)
      else
        let con := clearScreen con in
        let con := print invalid_input con in
        getValidatedString budget' prompt re con
  end.

(** ** class Book *)

Module Book.

Record t : Type := mk {
  title : string;
  author : string;
  year : string
}.

Definition getTitle (b : t) : string := title b.
Definition getAuthor (b : t) : string := author b.
Definition getYear (b : t) : string := year b.

Definition getBookFromInput (budget : nat) (con : Console)
    : Outcome (t * Console) :=
  let con := print ("Enter book details: " ++ endl ++ endl) con in
  let* (title, con) := getValidatedString budget "Enter title: " name_pattern con in
  let* (author, con) := getValidatedString budget "Enter author: " name_pattern con in
  let* (year, con) := getValidatedString budget "Enter year: " year_pattern con in
  Ret (mk title author year, con).

End Book.

(** ** class LibraryAction and class Library

    [Library] is parametrised by what its registry holds.  The object that
    [main] builds and runs is a [Library LibraryAction.t].  A closure that
    captured [&library] reaches the same object with the entries of the
    registry reduced to their labels, a [Library string]: the closures of
    this program add and look up books and never register or call actions,
    and the registry is put back as it was when the closure returns. *)

Record Library (A : Type) : Type := mkLibrary {
  books : list Book.t;
  actions : list A
}.

Arguments mkLibrary {A} books actions.
Arguments books {A} l.
Arguments actions {A} l.

(** What the closures of the program capture by reference: the library
    ([main]'s closures), the flag [running] of [Library::run] (the closure
    of the exit action); and the standard streams. *)
Record World : Type := mkWorld {
  library : Library string;
  running : bool;
  console : Console
}.

(** [function<void(vector<Book>)>]: the callee owns its argument, a vector
    of its own; the first component of the result is that vector when the
    call returns, where it is destroyed. *)
Definition Callback : Type :=
  nat -> list Book.t -> World -> Outcome (list Book.t * World).

Module LibraryAction.

Record t : Type := mk {
  title : string;
  action : Callback
}.

Definition getTitle (a : t) : string := title a.
Definition getAction (a : t) : Callback := action a.

End LibraryAction.

(** A closure with an empty capture list: of the world it has the standard
    streams only. *)
Definition captureless
    (body : nat -> list Book.t -> Console -> Outcome (list Book.t * Console))
    : Callback :=
  fun budget param w =>
    let* (param, con) := body budget param (console w) in
    Ret (param, mkWorld (library w) (running w) con).

(** [Library::addAction] *)
Definition addAction (name : string) (action : Callback)
    (lib : Library LibraryAction.t) : Library LibraryAction.t :=
  let libraryAction := LibraryAction.mk name action in
  mkLibrary (books lib) (actions lib ++ [libraryAction]).

(** [Library::findBook].  The result is the null pointer ([None]) or the
    address of an element of [books]: its position. *)
Fixpoint findBook_from (title : string) (bs : list Book.t) (i : nat)
    : option nat :=
  match bs with
  | [] => None
  | book :: rest =>
      if String.eqb (Book.getTitle book) title then Some i
      else findBook_from title rest (S i)
  end.

Definition findBook {A : Type} (title : string) (lib : Library A)
    : option nat * Library A :=
  (findBook_from title (books lib) 0, lib).

(** [*foundBook] *)
Definition deref {A : Type} (lib : Library A) (p : nat) : option Book.t :=
  nth_error (books lib) p.

(** [Library::addBook] *)
Definition addBook {A : Type} (book : Book.t) (lib : Library A) : Library A :=
  mkLibrary (books lib ++ [book]) (actions lib).

(** The library behind a captured reference, and the library after a closure
    that held the reference has returned. *)
Definition behind_reference (lib : Library LibraryAction.t) : Library string :=
  mkLibrary (books lib) (map LibraryAction.getTitle (actions lib)).

Definition after_call (lib : Library LibraryAction.t) (w : World)
    : Library LibraryAction.t :=
  mkLibrary (books (library w)) (actions lib).

(** ** Library::run *)

Definition exitAction : LibraryAction.t :=
  LibraryAction.mk "Exit"
    (fun _ param w =>
       let con := clearScreen (console w) in
       let con := print ("Thank you for using the library!" ++ endl) con in
       Ret (param, mkWorld (library w) false con)).

(** The [for] loop of [displayMenu], from index [i] on. *)
Fixpoint menu_entries (acts : list LibraryAction.t) (i : Z) (con : Console)
    : Console :=
  match acts with
  | [] => con
  | a :: rest =>
      let con :=
        print (decimal (size_add i 1) ++ ". " ++ LibraryAction.getTitle a ++ endl)
          con in
      menu_entries rest (size_add i 1) con
  end.

Definition displayMenu (lib : Library LibraryAction.t) (con : Console)
    : Console :=
  let con := clearScreen con in
  let con := print ("Welcome to the library!" ++ endl ++ endl) con in
  let con := print ("Please choose an action:" ++ endl) con in
  let maxIndex := size (actions lib) in
  let con := menu_entries (actions lib) 0 con in
  let con :=
    print (decimal (size_add maxIndex 1) ++ ". "
             ++ LibraryAction.getTitle exitAction ++ endl) con in
  print endl con.

(** The inner [while (true)]: reads until a choice passes the range test. *)
Fixpoint read_choice (budget : nat) (lib : Library LibraryAction.t)
    (choice : Z) (con : Console) : Outcome (Z * Console) :=
  match budget with
  | O => Starved
  | S budget' =>
      let con := print "Enter your choice: " con in
      let (choice, s) := extract_int choice (cin con) in
      let con := with_cin s con in
      if failbit (cin con) then
        let con := clearScreen con in
        let con := displayMenu lib con in
        let con := print invalid_input con in
        let con := with_cin (clear (cin con)) con in
        let con := with_cin (ignore (cin con)) con in
        read_choice budget' lib choice con
      else if (choice <? 1)
              || (size_add (size (actions lib)) 1 <? to_size_t choice) then
        let con := clearScreen con in
        let con := displayMenu lib con in
        let con := print invalid_input con in
        read_choice budget' lib choice con
      else
        let con := with_cin (ignore (cin con)) con in
        Ret (choice, con)
  end.

(** The state of [Library::run]: the library, [running] and the streams. *)
Definition RunState : Type := (Library LibraryAction.t * bool * Console)%type.

Definition call (a : LibraryAction.t) (budget : nat) (st : RunState)
    : Outcome RunState :=
  let '(lib, flag, con) := st in
  let* (_, w) := LibraryAction.getAction a budget (books lib)
                   (mkWorld (behind_reference lib) flag con) in
  Ret (after_call lib w, running w, console w).

(** One pass through the body of the outer [while (true)].  The boolean of
    the result is [false] when the body ends in [break]. *)
Definition menu_iteration (budget : nat) (st : RunState)
    : Outcome (bool * RunState) :=
  let '(lib, flag, con) := st in
  let con := clearScreen con in
  let con := displayMenu lib con in
  let* (choice, con) := read_choice budget lib 0 con in
  if to_size_t choice =? size_add (size (actions lib)) 1 then
    let* st := call exitAction budget (lib, flag, con) in
    Ret (false, st)
  else
    let con := clearScreen con in
    match nth_error (actions lib) (Z.to_nat (to_size_t (choice - 1))) with
    | None => Undefined
    | Some a =>
        let* st := call a budget (lib, flag, con) in
        Ret (true, st)
    end.

Fixpoint run_loop (budget : nat) (st : RunState) : Outcome RunState :=
  match budget with
  | O => Starved
  | S budget' =>
      let* (again, st) := menu_iteration budget' st in
      if again then run_loop budget' st else Ret st
  end.

Definition run (budget : nat) (lib : Library LibraryAction.t) (con : Console)
    : Outcome RunState :=
  run_loop budget (lib, true, con).

(** ** main *)

Definition nameWidth : nat := 20.
Definition authorWidth : nat := 20.
Definition yearWidth : nat := 10.

Fixpoint spaces (n : nat) : string :=
  match n with
  | O => ""
  | S n' => String " " (spaces n')
  end.

(** [left << setw(w) << s] *)
Definition left_setw (w : nat) (s : string) : string :=
  s ++ spaces (w - String.length s).

Definition table_top : string :=
  "┌─────────────────────┬─────────────────────┬───────────┐" ++ endl.
Definition table_head : string :=
  "│ Title               │ Author              │ Year      │" ++ endl.
Definition table_rule : string :=
  "├─────────────────────┼─────────────────────┼───────────┤" ++ endl.
Definition table_bottom : string :=
  "└─────────────────────┴─────────────────────┴───────────┘" ++ endl.

Definition table_row (book : Book.t) : string :=
  "│ " ++ left_setw nameWidth (Book.getTitle book)
    ++ "│ " ++ left_setw authorWidth (Book.getAuthor book)
    ++ "│ " ++ left_setw yearWidth (Book.getYear book) ++ "│" ++ endl.

Definition press_enter (con : Console) : Console :=
  let con := print ("Press enter to continue..." ++ endl) con in
  with_cin (get (cin con)) con.

(** "Add a book", capturing [&library]. *)
Definition add_a_book : Callback :=
  fun budget param w =>
    let* (book, con) := Book.getBookFromInput budget (console w) in
    Ret (param, mkWorld (addBook book (library w)) (running w) con).

(** "Search book", capturing [&library]. *)
Definition search_book : Callback :=
  fun budget param w =>
    let con := clearScreen (console w) in
    let* (title, con) :=
      getValidatedString budget "Enter book title: " name_pattern con in
    let (foundBook, lib) := findBook title (library w) in
    let con := clearScreen con in
    let* con :=
      match foundBook with
      | Some p =>
          match deref lib p with
          | None => Undefined
          | Some book =>
              let con := print ("Book found." ++ endl ++ endl) con in
              let con := print table_top con in
              let con := print table_head con in
              let con := print table_rule con in
              let con := print (table_row book) con in
              Ret (print table_bottom con)
          end
      | None => Ret (print ("Book not found." ++ endl) con)
      end in
    Ret (param, mkWorld lib (running w) (press_enter con)).

(** "Display books", capturing nothing. *)
Definition display_books : Callback :=
  captureless (fun _ books con =>
    let con :=
      match books with
      | [] =>
          let con := print
            ("┌───────────────────────────────────────────────────────┐" ++ endl)
            con in
          let con := print
            ("│                  No books to display                  │" ++ endl)
            con in
          print
            ("└───────────────────────────────────────────────────────┘" ++ endl)
            con
      | _ :: _ =>
          let con := print table_top con in
          let con := print table_head con in
          let con := print table_rule con in
          let con :=
            fold_left (fun con book => print (table_row book) con) books con in
          print table_bottom con
      end in
    Ret (books, press_enter con)).

(** The library of [main] when it calls [run]. *)
Definition main_library : Library LibraryAction.t :=
  let library := mkLibrary [] [] in
  let library := addAction "Add a book" add_a_book library in
  let library := addAction "Search book" search_book library in
  addAction "Display books" display_books library.

Definition main (budget : nat) (con : Console) : Outcome RunState :=
  run budget main_library con.

(** A terminal at program start with [input] typed ahead. *)
Definition terminal (input : string) : Console :=
  mkConsole (mkIstream input false false) [].

(** ** Vocabulary of the specification *)

Fixpoint all_chars (p : ascii -> bool) (s : string) : bool :=
  match s with
  | EmptyString => true
  | String c t => p c && all_chars p t
  end.

(** A line of input: text without a newline in it. *)
Definition is_line (s : string) : bool :=
  all_chars (fun c => negb (Ascii.eqb c newline)) s.

(** The lines [ls] as typed, each one ended by the enter key. *)
Fixpoint lines (ls : list string) : string :=
  match ls with
  | [] => ""
  | l :: rest => l ++ String newline (lines rest)
  end.

(** A letter, a digit or a space. *)
Definition name_char (c : ascii) : bool :=
  let n := nat_of_ascii c in
  ((97 <=? n)%nat && (n <=? 122)%nat)
  || ((65 <=? n)%nat && (n <=? 90)%nat)
  || ((48 <=? n)%nat && (n <=? 57)%nat)
  || (n =? 32)%nat.

(** The buffer begins with a numeral: an optional sign, then a digit. *)
Definition starts_with_numeral (buf : string) : bool :=
  match snd (read_sign buf) with
  | EmptyString => false
  | String d _ => isdigit d
  end.

(** A token that is a decimal integer: an optional sign, then digits only. *)
Definition digits_only (s : string) : bool :=
  negb (String.eqb s "") && all_chars isdigit s.

Definition numeric_token (t : string) : bool :=
  match t with
  | EmptyString => false
  | String c rest =>
      if Ascii.eqb c "-" || Ascii.eqb c "+" then digits_only rest
      else digits_only t
  end.

(** The book sequence [after] extends [before]. *)
Definition grows (before after : list Book.t) : Prop :=
  exists more, after = before ++ more.

(** The numbered menu lines of the registry, counting from 1. *)
Definition menu_line (ka : nat * LibraryAction.t) : Output :=
  Text (decimal (Z.of_nat (fst ka)) ++ ". "
          ++ LibraryAction.getTitle (snd ka) ++ endl).

Definition numbered (acts : list LibraryAction.t) : list Output :=
  map menu_line (combine (seq 1 (List.length acts)) acts).

(** The menu as it appears on the terminal. *)
Definition menu (lib : Library LibraryAction.t) : list Output :=
  [Clear; Text ("Welcome to the library!" ++ endl ++ endl);
   Text ("Please choose an action:" ++ endl)]
  ++ numbered (actions lib)
  ++ [Text (decimal (size (actions lib) + 1) ++ ". Exit" ++ endl); Text endl].

(** What the terminal shows when a choice is turned down: the prompt that
    was answered, then the menu again and the error message. *)
Definition refusal (lib : Library LibraryAction.t) : list Output :=
  [Text "Enter your choice: "; Clear] ++ menu lib ++ [Text invalid_input].

(** The first read of the menu loop on [con] turns the input down: the loop
    shows the refusal and reads again. *)
Definition turned_down (lib : Library LibraryAction.t) (con : Console) : Prop :=
  forall (budget : nat) (c0 : Z),
  exists (v : Z) (s : istream),
    read_choice (S budget) lib c0 con
    = read_choice budget lib v (mkConsole s (cout con ++ refusal lib)).

(** A callback under which the stored books only grow. *)
Definition growing (f : Callback) : Prop :=
  forall (budget : nat) (param : list Book.t) (w : World)
         (param' : list Book.t) (w' : World),
    f budget param w = Ret (param', w') ->
    grows (books (library w)) (books (library w')).

(** An outcome that is not undefined behaviour. *)
Definition defined {A : Type} (o : Outcome A) : Prop :=
  match o with
  | Undefined => False
  | _ => True
  end.

(** A book as book entry lets it in. *)
Definition valid_book (b : Book.t) : Prop :=
  regex_match (Book.getTitle b) name_pattern = true
  /\ regex_match (Book.getAuthor b) name_pattern = true
  /\ regex_match (Book.getYear b) year_pattern = true.

Definition has_title (query : string) (b : Book.t) : bool :=
  String.eqb (Book.getTitle b) query.

(** The last two things on the terminal when the exit action has run. *)
Definition farewell : list Output :=
  [Clear; Text ("Thank you for using the library!" ++ endl)].

Definition press_enter_text : Output :=
  Text ("Press enter to continue..." ++ endl).

(** What "Search book" shows for the book it found, or for none. *)
Definition search_report (found : option Book.t) : list Output :=
  match found with
  | Some book =>
      [Text ("Book found." ++ endl ++ endl); Text table_top; Text table_head;
       Text table_rule; Text (table_row book); Text table_bottom]
  | None => [Text ("Book not found." ++ endl)]
  end.

(** What "Display books" shows for the books [bs]. *)
Definition display_report (bs : list Book.t) : list Output :=
  match bs with
  | [] =>
      [Text ("┌───────────────────────────────────────────────────────┐" ++ endl);
       Text ("│                  No books to display                  │" ++ endl);
       Text ("└───────────────────────────────────────────────────────┘" ++ endl)]
  | _ :: _ =>
      [Text table_top; Text table_head; Text table_rule]
      ++ map (fun book => Text (table_row book)) bs
      ++ [Text table_bottom]
  end.

(** A callback that keeps the property [P] of the stored books. *)
Definition keeps (P : list Book.t -> Prop) (f : Callback) : Prop :=
  forall (budget : nat) (param : list Book.t) (w : World)
         (param' : list Book.t) (w' : World),
    P (books (library w)) ->
    f budget param w = Ret (param', w') ->
    P (books (library w')).

(** A callback without undefined behaviour. *)
Definition safe (f : Callback) : Prop :=
  forall (budget : nat) (param : list Book.t) (w : World),
    defined (f budget param w).

(** The sign a numeral is typed with. *)
Inductive Sign : Type :=
| NoSign
| PlusSign
| MinusSign.

Definition sign_text (sg : Sign) : string :=
  match sg with
  | NoSign => ""
  | PlusSign => "+"
  | MinusSign => "-"
  end.

Definition signed (sg : Sign) (n : Z) : Z :=
  match sg with
  | MinusSign => - n
  | _ => n
  end.

(** * Verification *)

(** Facts about single characters, by enumeration of the 256 of them. *)
Ltac enumerate_char c :=
  destruct c as [[] [] [] [] [] [] [] []]; vm_compute;
  try reflexivity; intros; try discriminate; try (split; reflexivity).

(** ** Strings *)

Lemma append_nil_r (s : string) : (s ++ "")%string = s.
Proof. induction s as [|c s IH]; simpl; [reflexivity | now rewrite IH]. Qed.

Lemma append_assoc (s t u : string) : ((s ++ t) ++ u = s ++ t ++ u)%string.
Proof. induction s as [|c s IH]; simpl; [reflexivity | now rewrite IH]. Qed.

(** ** The two patterns of the program *)

Lemma name_pattern_text : pattern_of name_pattern = "^[a-zA-Z0-9 ]+$".
Proof. reflexivity. Qed.

Lemma year_pattern_text : pattern_of year_pattern = "^[0-9]{4}$".
Proof. reflexivity. Qed.

Lemma bracket_digit (c : ascii) : in_bracket [("0", "9")]%char c = isdigit c.
Proof. enumerate_char c. Qed.

Lemma bracket_name (c : ascii) :
  in_bracket [("a", "z"); ("A", "Z"); ("0", "9"); (" ", " ")]%char c
  = name_char c.
Proof. enumerate_char c. Qed.

Lemma name_char_not_newline (c : ascii) :
  name_char c = true -> Ascii.eqb c newline = false.
Proof. enumerate_char c. Qed.

Lemma digit_not_space (c : ascii) : isdigit c = true -> isspace c = false.
Proof. enumerate_char c. Qed.

Lemma digit_not_sign (c : ascii) :
  isdigit c = true -> Ascii.eqb c "-" = false /\ Ascii.eqb c "+" = false.
Proof. enumerate_char c. Qed.

Lemma digit_is_name_char (c : ascii) : isdigit c = true -> name_char c = true.
Proof. enumerate_char c. Qed.

Lemma all_chars_impl (p q : ascii -> bool) (s : string) :
  (forall c, p c = true -> q c = true) ->
  all_chars p s = true -> all_chars q s = true.
Proof.
  intros Hpq. induction s as [|c s IH]; simpl; [reflexivity|].
  rewrite !andb_true_iff. intros [Hc Hs]. split; auto.
Qed.

Lemma all_chars_ext (p q : ascii -> bool) (s : string) :
  (forall c, p c = q c) -> all_chars p s = all_chars q s.
Proof.
  intros Hpq. induction s as [|c s IH]; simpl; [reflexivity|].
  now rewrite Hpq, IH.
Qed.

(** Matching [$] keeps exactly the ways of matching that used up the
    subject. *)
Lemma ends_eol_exhausted (whole : nat) (l : list string) :
  existsb (fun t => String.eqb t "") (flat_map (ends whole Eol) l)
  = existsb (fun t => String.eqb t "") l.
Proof.
  induction l as [|a l IH]; [reflexivity|].
  cbn [flat_map existsb]. rewrite existsb_app, IH. destruct a; reflexivity.
Qed.

Lemma existsb_empty_In (l : list string) :
  existsb (fun t => String.eqb t "") l = true <-> In ""%string l.
Proof.
  rewrite existsb_exists. split.
  - intros [t [Hin Ht]]. apply String.eqb_eq in Ht. now subst.
  - intros Hin. exists ""%string. split; [assumption | reflexivity].
Qed.

(** [[...]+] leaves nothing exactly of the non-empty subjects made of
    characters of the bracket. *)
Lemma plus_bracket_exhausts (whole : nat) (ranges : list (ascii * ascii)) :
  forall (budget : nat) (s : string),
    (String.length s < budget)%nat ->
    (In ""%string (plus_loop (ends whole (Bracket ranges)) budget s)
     <-> s <> ""%string /\ all_chars (in_bracket ranges) s = true).
Proof.
  induction budget as [|budget IH]; intros s Hlen; [lia|].
  destruct s as [|c t].
  - simpl. split; [tauto | intros [H _]; now elim H].
  - cbn [plus_loop ends all_chars].
    destruct (in_bracket ranges c) eqn:Hc; cbn [flat_map app].
    + assert (Hlt : (String.length t <? String.length (String c t))%nat = true)
        by (apply Nat.ltb_lt; simpl; lia).
      rewrite Hlt, app_nil_r. simpl in Hlen.
      specialize (IH t ltac:(lia)).
      split.
      * intros [Ht | Hin].
        -- subst t. split; [discriminate | reflexivity].
        -- apply IH in Hin. split; [discriminate | tauto].
      * intros [_ Hall]. simpl in Hall.
        destruct t as [|d t']; [now left | right].
        apply IH. split; [discriminate | assumption].
    + split; [intros [] | intros [_ H]; discriminate H].
Qed.

(** A pattern between [^] and [$]. *)
Lemma regex_match_anchored (s : string) (r : regex) :
  regex_match s (Seq Bol (Seq r Eol))
  = existsb (fun t => String.eqb t "") (ends (String.length s) r s).
Proof.
  unfold regex_match.
  change (ends (String.length s) (Seq Bol (Seq r Eol)) s)
    with (flat_map
            (fun t => flat_map (ends (String.length s) Eol)
                        (ends (String.length s) r t))
            (if (String.length s =? String.length s)%nat then [s] else [])).
  rewrite Nat.eqb_refl. cbn [flat_map]. rewrite app_nil_r.
  apply ends_eol_exhausted.
Qed.

Lemma regex_match_name (s : string) :
  regex_match s name_pattern = true
  <-> s <> ""%string /\ all_chars name_char s = true.
Proof.
  unfold name_pattern. rewrite regex_match_anchored.
  match goal with
  | |- context [ends ?n (Plus ?b) s] =>
      change (ends n (Plus b) s)
        with (plus_loop (ends n b) (S (String.length s)) s)
  end.
  rewrite existsb_empty_In, plus_bracket_exhausts by lia.
  now rewrite (all_chars_ext _ name_char s bracket_name).
Qed.

(** [[...]{4}] leaves nothing exactly of the subjects of four characters of
    the bracket. *)
Lemma times4_bracket_exhausts (whole : nat) (ranges : list (ascii * ascii))
    (s : string) :
  existsb (fun t => String.eqb t "")
    (times_loop (ends whole (Bracket ranges)) 4 [s])
  = (String.length s =? 4)%nat && all_chars (in_bracket ranges) s.
Proof.
  destruct s as [|c1 [|c2 [|c3 [|c4 [|c5 s]]]]];
    cbn [times_loop flat_map ends app all_chars String.length Nat.eqb];
    repeat match goal with
           | |- context [in_bracket ?r ?c] =>
               destruct (in_bracket r c);
               cbn [times_loop flat_map ends app andb existsb]
           end;
    reflexivity.
Qed.

Lemma regex_match_year_eq (s : string) :
  regex_match s year_pattern
  = (String.length s =? 4)%nat && all_chars isdigit s.
Proof.
  unfold year_pattern. rewrite regex_match_anchored.
  rewrite <- (all_chars_ext _ _ s bracket_digit).
  apply times4_bracket_exhausts.
Qed.

Lemma regex_match_year (s : string) :
  regex_match s year_pattern = true
  <-> String.length s = 4%nat /\ all_chars isdigit s = true.
Proof.
  rewrite regex_match_year_eq, andb_true_iff, Nat.eqb_eq. reflexivity.
Qed.

(** ** Reading a line *)

Lemma take_line_newline (line rest : string) :
  is_line line = true ->
  take_line (line ++ String newline rest) = (line, Some rest).
Proof.
  unfold is_line. induction line as [|c line IH]; simpl; [reflexivity|].
  destruct (Ascii.eqb c newline); simpl; [discriminate|].
  intros H. now rewrite (IH H).
Qed.

Lemma getline_line (line rest : string) :
  is_line line = true ->
  getline (mkIstream (line ++ String newline rest) false false)
  = (line, mkIstream rest false false).
Proof.
  intros H. unfold getline. simpl. now rewrite take_line_newline.
Qed.

Lemma lines_cons_append (l : string) (ls : list string) (rest : string) :
  (lines (l :: ls) ++ rest)%string = (l ++ String newline (lines ls ++ rest))%string.
Proof. cbn [lines]. now rewrite append_assoc. Qed.

Lemma is_line_name (s : string) : all_chars name_char s = true -> is_line s = true.
Proof.
  apply all_chars_impl. intros c Hc.
  now rewrite (name_char_not_newline c Hc).
Qed.

(** ** getValidatedString *)

Section Reader.

Variables (prompt : string) (re : regex).

Lemma getValidatedString_accepts (budget : nat) (con : Console)
    (line rest : string) :
  cin con = mkIstream (line ++ String newline rest) false false ->
  is_line line = true ->
  regex_match line re = true ->
  getValidatedString (S budget) prompt re con
  = Ret (line, mkConsole (mkIstream rest false false) (cout con ++ [Text prompt])).
Proof.
  intros Hcin Hline Hre. cbn [getValidatedString print cin].
  rewrite Hcin, (getline_line _ _ Hline), Hre. reflexivity.
Qed.

Lemma getValidatedString_rejects (budget : nat) (con : Console)
    (line rest : string) :
  cin con = mkIstream (line ++ String newline rest) false false ->
  is_line line = true ->
  regex_match line re = false ->
  getValidatedString (S budget) prompt re con
  = getValidatedString budget prompt re
      (mkConsole (mkIstream rest false false)
         (cout con ++ [Text prompt; Clear; Text invalid_input])).
Proof.
  intros Hcin Hline Hre. cbn [getValidatedString print cin].
  rewrite Hcin, (getline_line _ _ Hline), Hre.
  unfold clearScreen, print, with_cin. cbn [cin cout].
  now rewrite <- !app_assoc.
Qed.

Lemma getValidatedString_sound :
  forall (budget : nat) (con : Console) (s : string) (con' : Console),
    getValidatedString budget prompt re con = Ret (s, con') ->
    regex_match s re = true.
Proof.
  induction budget as [|budget IH]; intros con s con' H; [discriminate|].
  cbn [getValidatedString] in H.
  destruct (getline (cin (print prompt con))) as [input cin'].
  destruct (regex_match input re) eqn:Hre.
  - injection H as Hs _. rewrite <- Hs. exact Hre.
  - eapply IH, H.
Qed.

End Reader.

(** C3.  Fed lines that do not match the pattern and then a line that does,
    [getValidatedString] returns, and what it returns is that first matching
    line: every line before it costs one error message and one more prompt.
    Whatever it is fed, it returns no line that does not match. *)
Theorem getValidatedString_bad_then_good :
  forall (prompt : string) (re : regex) (bad : list string) (ok rest : string)
         (con : Console) (budget : nat),
    Forall (fun l => is_line l = true /\ regex_match l re = false) bad ->
    is_line ok = true ->
    regex_match ok re = true ->
    cin con = mkIstream (lines bad ++ ok ++ String newline rest) false false ->
    (List.length bad < budget)%nat ->
    getValidatedString budget prompt re con
    = Ret (ok,
           mkConsole (mkIstream rest false false)
             (cout con
                ++ flat_map (fun _ => [Text prompt; Clear; Text invalid_input]) bad
                ++ [Text prompt]))
    /\ (forall (budget' : nat) (con0 : Console) (s : string) (con' : Console),
           getValidatedString budget' prompt re con0 = Ret (s, con') ->
           regex_match s re = true).
Proof.
  intros prompt re bad ok rest con budget Hbad Hline Hok Hcin Hbudget.
  split; [| apply getValidatedString_sound].
  revert con budget Hcin Hbudget.
  induction Hbad as [|l bad [Hl Hre] Hbad IH]; intros con budget Hcin Hbudget.
  - destruct budget as [|budget]; [simpl in Hbudget; lia|].
    simpl in Hcin. cbn [flat_map app].
    now apply getValidatedString_accepts.
  - destruct budget as [|budget]; [simpl in Hbudget; lia|].
    rewrite lines_cons_append in Hcin.
    rewrite (getValidatedString_rejects prompt re budget con l _ Hcin Hl Hre).
    rewrite IH; [| reflexivity | simpl in Hbudget; lia].
    cbn [cout flat_map]. now rewrite <- !app_assoc.
Qed.

Lemma getValidatedString_bad_then_good_witness :
  getValidatedString 3 "Enter year: " year_pattern
    (terminal (lines ["19a9"; "99"] ++ "1999" ++ String newline "rest"))
  = Ret ("1999"%string,
         mkConsole (mkIstream "rest" false false)
           [Text "Enter year: "; Clear; Text invalid_input;
            Text "Enter year: "; Clear; Text invalid_input;
            Text "Enter year: "])
  /\ regex_match "1999" year_pattern = true.
Proof.
  destruct (getValidatedString_bad_then_good
              "Enter year: " year_pattern ["19a9"; "99"]%string "1999" "rest"
              (terminal (lines ["19a9"; "99"] ++ "1999" ++ String newline "rest"))
              3%nat) as [Hret Hsound].
  - repeat constructor.
  - reflexivity.
  - reflexivity.
  - reflexivity.
  - simpl; lia.
  - split; [exact Hret | exact (Hsound _ _ _ _ Hret)].
Defined.

(** C6.  A line that matches the pattern is returned as it is on the first
    attempt: one prompt, no error message, no second read.  For the pattern
    [^[a-zA-Z0-9 ]+$] these are the non-empty lines of letters, digits and
    spaces. *)
Theorem getValidatedString_first_attempt :
  (forall (prompt : string) (re : regex) (line rest : string) (con : Console)
          (budget : nat),
      cin con = mkIstream (line ++ String newline rest) false false ->
      is_line line = true ->
      regex_match line re = true ->
      getValidatedString (S budget) prompt re con
      = Ret (line,
             mkConsole (mkIstream rest false false) (cout con ++ [Text prompt])))
  /\ (forall (prompt : string) (name rest : string) (con : Console)
             (budget : nat),
         cin con = mkIstream (name ++ String newline rest) false false ->
         regex_match name name_pattern = true ->
         name <> ""%string /\ all_chars name_char name = true
         /\ getValidatedString (S budget) prompt name_pattern con
            = Ret (name,
                   mkConsole (mkIstream rest false false)
                     (cout con ++ [Text prompt])))
  /\ (forall name : string,
         name <> ""%string -> all_chars name_char name = true ->
         regex_match name name_pattern = true).
Proof.
  split; [| split].
  - intros prompt re line rest con budget Hcin Hline Hre.
    now apply getValidatedString_accepts.
  - intros prompt name rest con budget Hcin Hre.
    destruct (proj1 (regex_match_name name) Hre) as [Hne Hall].
    repeat split; try assumption.
    apply getValidatedString_accepts; auto using is_line_name.
  - intros name Hne Hall. apply regex_match_name. now split.
Qed.

Lemma getValidatedString_first_attempt_witness :
  getValidatedString 1 "Enter title: " name_pattern
    (terminal ("Dune 2" ++ String newline "Frank Herbert"))
  = Ret ("Dune 2"%string,
         mkConsole (mkIstream "Frank Herbert" false false) [Text "Enter title: "])
  /\ getValidatedString 1 "Enter year: " year_pattern
       (terminal ("1965" ++ String newline ""))
     = Ret ("1965"%string,
            mkConsole (mkIstream "" false false) [Text "Enter year: "])
  /\ regex_match "Frank Herbert" name_pattern = true.
Proof.
  destruct getValidatedString_first_attempt as [Hany [Hname Hchars]].
  split; [| split].
  - apply (Hname "Enter title: " "Dune 2" "Frank Herbert"
             (terminal ("Dune 2" ++ String newline "Frank Herbert")) 0%nat)%string.
    + reflexivity.
    + reflexivity.
  - apply (Hany "Enter year: " year_pattern "1965" ""
             (terminal ("1965" ++ String newline "")) 0%nat)%string.
    + reflexivity.
    + reflexivity.
    + reflexivity.
  - apply (Hchars "Frank Herbert"%string).
    + discriminate.
    + reflexivity.
Defined.

(** ** Book entry *)

Lemma is_line_digits (s : string) : all_chars isdigit s = true -> is_line s = true.
Proof.
  intros H. apply is_line_name.
  revert H. apply all_chars_impl, digit_is_name_char.
Qed.

Lemma getBookFromInput_entry (budget : nat) (con : Console)
    (title author year rest : string) :
  cin con = mkIstream (lines [title; author; year] ++ rest) false false ->
  regex_match title name_pattern = true ->
  regex_match author name_pattern = true ->
  is_line year = true ->
  regex_match year year_pattern = true ->
  Book.getBookFromInput (S budget) con
  = Ret (Book.mk title author year,
         mkConsole (mkIstream rest false false)
           (cout con ++ [Text ("Enter book details: " ++ endl ++ endl);
                         Text "Enter title: "; Text "Enter author: ";
                         Text "Enter year: "])).
Proof.
  intros Hcin Ht Ha Hline Hy.
  apply regex_match_name in Ht as Ht'. destruct Ht' as [_ Ht'].
  apply regex_match_name in Ha as Ha'. destruct Ha' as [_ Ha'].
  rewrite !lines_cons_append in Hcin. cbn [lines append] in Hcin.
  unfold Book.getBookFromInput.
  erewrite getValidatedString_accepts;
    [| cbn [print cin]; exact Hcin | now apply is_line_name | exact Ht].
  cbn [bind].
  erewrite getValidatedString_accepts;
    [| cbn [cin]; reflexivity | now apply is_line_name | exact Ha].
  cbn [bind].
  erewrite getValidatedString_accepts;
    [| cbn [cin]; reflexivity | exact Hline | exact Hy].
  cbn [bind print cout]. now rewrite <- !app_assoc.
Qed.

Lemma getBookFromInput_sound (budget : nat) (con : Console) (b : Book.t)
    (con' : Console) :
  Book.getBookFromInput budget con = Ret (b, con') ->
  regex_match (Book.getTitle b) name_pattern = true
  /\ regex_match (Book.getAuthor b) name_pattern = true
  /\ regex_match (Book.getYear b) year_pattern = true.
Proof.
  unfold Book.getBookFromInput. intros H.
  destruct (getValidatedString budget "Enter title: " name_pattern _)
    as [[title c1]| |] eqn:H1; try discriminate H.
  cbn [bind] in H.
  destruct (getValidatedString budget "Enter author: " name_pattern c1)
    as [[author c2]| |] eqn:H2; try discriminate H.
  cbn [bind] in H.
  destruct (getValidatedString budget "Enter year: " year_pattern c2)
    as [[year c3]| |] eqn:H3; try discriminate H.
  cbn [bind] in H. injection H as Hb _. subst b.
  apply getValidatedString_sound in H1, H2, H3. now repeat split.
Qed.

(** C7.  The year of a book is read against [^[0-9]{4}$]: a line is taken
    as the year exactly when it is four decimal digits.  "1999" is taken on
    the first attempt; "99", "19999" and "19a9" bring the error message and
    the prompt again. *)
Theorem year_input_four_digits :
  (forall s : string,
      regex_match s year_pattern = true
      <-> String.length s = 4%nat /\ all_chars isdigit s = true)
  /\ (forall (budget : nat) (con : Console) (y rest : string),
         cin con = mkIstream (y ++ String newline rest) false false ->
         is_line y = true ->
         getValidatedString (S budget) "Enter year: " year_pattern con
         = if (String.length y =? 4)%nat && all_chars isdigit y
           then Ret (y, mkConsole (mkIstream rest false false)
                          (cout con ++ [Text "Enter year: "]))
           else getValidatedString budget "Enter year: " year_pattern
                  (mkConsole (mkIstream rest false false)
                     (cout con ++ [Text "Enter year: "; Clear;
                                   Text invalid_input])))
  /\ (forall (budget : nat) (con : Console) (title author y rest : string),
         cin con = mkIstream (lines [title; author; y] ++ rest) false false ->
         regex_match title name_pattern = true ->
         regex_match author name_pattern = true ->
         String.length y = 4%nat -> all_chars isdigit y = true ->
         Book.getBookFromInput (S budget) con
         = Ret (Book.mk title author y,
                mkConsole (mkIstream rest false false)
                  (cout con ++ [Text ("Enter book details: " ++ endl ++ endl);
                                Text "Enter title: "; Text "Enter author: ";
                                Text "Enter year: "])))
  /\ (forall (budget : nat) (con : Console) (b : Book.t) (con' : Console),
         Book.getBookFromInput budget con = Ret (b, con') ->
         String.length (Book.getYear b) = 4%nat
         /\ all_chars isdigit (Book.getYear b) = true)
  /\ regex_match "1999" year_pattern = true
  /\ regex_match "99" year_pattern = false
  /\ regex_match "19999" year_pattern = false
  /\ regex_match "19a9" year_pattern = false.
Proof.
  split; [exact regex_match_year|].
  split.
  { intros budget con y rest Hcin Hline.
    rewrite <- regex_match_year_eq.
    destruct (regex_match y year_pattern) eqn:Hy; cbv iota.
    - now apply getValidatedString_accepts.
    - now apply getValidatedString_rejects with (line := y). }
  split.
  { intros budget con title author y rest Hcin Ht Ha Hlen Hdigits.
    apply getBookFromInput_entry; auto using is_line_digits.
    apply regex_match_year. now split. }
  split.
  { intros budget con b con' H.
    apply regex_match_year.
    now destruct (getBookFromInput_sound _ _ _ _ H) as [_ [_ Hy]]. }
  repeat split; reflexivity.
Qed.

Lemma year_input_four_digits_witness :
  (String.length "1999" = 4%nat /\ all_chars isdigit "1999" = true)
  /\ getValidatedString 2 "Enter year: " year_pattern
       (terminal (lines ["19a9"; "1999"]))
     = getValidatedString 1 "Enter year: " year_pattern
         (mkConsole (mkIstream (lines ["1999"]) false false)
            [Text "Enter year: "; Clear; Text invalid_input])
  /\ Book.getBookFromInput 1 (terminal (lines ["Dune"; "Frank Herbert"; "1965"]))
     = Ret (Book.mk "Dune" "Frank Herbert" "1965",
            mkConsole (mkIstream "" false false)
              [Text ("Enter book details: " ++ endl ++ endl);
               Text "Enter title: "; Text "Enter author: ";
               Text "Enter year: "])
  /\ (String.length "1965" = 4%nat /\ all_chars isdigit "1965" = true).
Proof.
  destruct year_input_four_digits as [Hiff [Hread [Hentry [Hsound _]]]].
  split; [| split; [| split]].
  - apply (proj1 (Hiff "1999"%string)). reflexivity.
  - apply (Hread 1%nat (terminal (lines ["19a9"; "1999"]))
             "19a9"%string (lines ["1999"])).
    + reflexivity.
    + reflexivity.
  - rewrite <- (append_nil_r (lines ["Dune"; "Frank Herbert"; "1965"])).
    apply (Hentry 0%nat
             (terminal (lines ["Dune"; "Frank Herbert"; "1965"] ++ ""))
             "Dune" "Frank Herbert" "1965" "")%string.
    + reflexivity.
    + reflexivity.
    + reflexivity.
    + reflexivity.
    + reflexivity.
  - apply (Hsound 1%nat (terminal (lines ["Dune"; "Frank Herbert"; "1965"]))
             (Book.mk "Dune" "Frank Herbert" "1965")
             (mkConsole (mkIstream "" false false)
                [Text ("Enter book details: " ++ endl ++ endl);
                 Text "Enter title: "; Text "Enter author: ";
                 Text "Enter year: "])).
    reflexivity.
Defined.

(** ** Numerals *)

Lemma digit_value_range (c : ascii) :
  isdigit c = true -> (0 <=? digit_value c) && (digit_value c <=? 9) = true.
Proof. enumerate_char c. Qed.

Lemma numeral_value_acc (u : Decimal.uint) :
  forall acc : positive,
    numeral_value (Zpos acc) (NilEmpty.string_of_uint u)
    = Zpos (Pos.of_uint_acc u acc).
Proof.
  induction u as [|u IH|u IH|u IH|u IH|u IH|u IH|u IH|u IH|u IH|u IH];
    intros acc; cbn [NilEmpty.string_of_uint numeral_value Pos.of_uint_acc];
    [reflexivity | rewrite <- IH; f_equal ..];
    match goal with
    | |- context [digit_value ?c] =>
        let v := eval vm_compute in (digit_value c) in
        change (digit_value c) with v
    end; lia.
Qed.

Lemma numeral_value_uint (u : Decimal.uint) :
  numeral_value 0 (NilEmpty.string_of_uint u) = Z.of_N (Pos.of_uint u).
Proof.
  induction u as [|u IH|u IH|u IH|u IH|u IH|u IH|u IH|u IH|u IH|u IH];
    cbn [NilEmpty.string_of_uint numeral_value Pos.of_uint];
    [reflexivity | exact IH | apply numeral_value_acc ..].
Qed.

Lemma numeral_value_decimal (z : Z) : 0 <= z -> numeral_value 0 (decimal z) = z.
Proof.
  intros Hz. unfold decimal, NilZero.string_of_uint.
  pose proof (DecimalN.Unsigned.of_to (Z.to_N z)) as Hof.
  unfold N.of_uint in Hof.
  destruct (N.to_uint (Z.to_N z)) as [|u|u|u|u|u|u|u|u|u|u] eqn:Hu;
    [change (numeral_value 0 "0") with 0; cbn [Pos.of_uint] in Hof; lia
    | rewrite numeral_value_uint, Hof; lia ..].
Qed.

Lemma digits_string_of_uint (u : Decimal.uint) :
  all_chars isdigit (NilEmpty.string_of_uint u) = true.
Proof. induction u; simpl; auto. Qed.

Lemma decimal_digits_only (z : Z) : digits_only (decimal z) = true.
Proof.
  unfold digits_only, decimal, NilZero.string_of_uint.
  destruct (N.to_uint (Z.to_N z)) as [|u|u|u|u|u|u|u|u|u|u];
    cbn [NilEmpty.string_of_uint all_chars String.eqb negb andb];
    try reflexivity; apply digits_string_of_uint.
Qed.

Lemma digits_only_inv (ds : string) :
  digits_only ds = true ->
  exists d ds', ds = String d ds' /\ isdigit d = true
                /\ all_chars isdigit ds' = true.
Proof.
  unfold digits_only. destruct ds as [|d ds']; simpl; [discriminate|].
  rewrite andb_true_iff. intros [Hd Hds]. now exists d, ds'.
Qed.

Lemma numeral_value_nonneg (ds : string) :
  forall acc : Z,
    0 <= acc -> all_chars isdigit ds = true -> 0 <= numeral_value acc ds.
Proof.
  induction ds as [|d ds IH]; intros acc Hacc Hds; cbn [numeral_value];
    [assumption|].
  cbn [all_chars] in Hds. apply andb_true_iff in Hds as [Hd Hds].
  apply IH; [| assumption].
  pose proof (digit_value_range d Hd) as Hr.
  apply andb_true_iff in Hr as [Hlo _]. apply Z.leb_le in Hlo. lia.
Qed.

(** ** Reading an integer *)

Lemma read_digits_stop (ds : string) (c : ascii) (rest : string) :
  all_chars isdigit ds = true ->
  isdigit c = false ->
  read_digits (ds ++ String c rest) = (ds, String c rest).
Proof.
  intros Hds Hc. induction ds as [|d ds IH]; simpl.
  - now rewrite Hc.
  - simpl in Hds. apply andb_true_iff in Hds as [Hd Hds].
    now rewrite Hd, (IH Hds).
Qed.

(** A numeral in the range of [int], followed by something that is no
    digit, is read as its value; what follows it stays in the buffer. *)
Lemma extract_int_numeral (old : Z) (ds : string) (c : ascii) (rest : string) :
  digits_only ds = true ->
  isdigit c = false ->
  numeral_value 0 ds <= INT_MAX ->
  extract_int old (mkIstream (ds ++ String c rest) false false)
  = (numeral_value 0 ds, mkIstream (String c rest) false false).
Proof.
  intros Hds Hc Hmax.
  destruct (digits_only_inv ds Hds) as [d [ds' [-> [Hd Hds']]]].
  assert (Hall : all_chars isdigit (String d ds') = true)
    by (simpl; now rewrite Hd, Hds').
  pose proof (numeral_value_nonneg _ 0 ltac:(lia) Hall) as Hpos.
  destruct (digit_not_sign d Hd) as [Hminus Hplus].
  unfold extract_int. cbn [good eofbit failbit negb andb pending].
  cbn [append skipws]. rewrite (digit_not_space d Hd).
  cbn [read_sign]. rewrite Hminus, Hplus.
  change (String d (ds' ++ String c rest))
    with (String d ds' ++ String c rest)%string.
  rewrite (read_digits_stop _ _ _ Hall Hc).
  cbn [String.eqb].
  destruct (numeral_value 0 (String d ds') <? INT_MIN) eqn:Hlo.
  { apply Z.ltb_lt in Hlo. unfold INT_MIN in Hlo. lia. }
  destruct (INT_MAX <? numeral_value 0 (String d ds')) eqn:Hhi.
  { apply Z.ltb_lt in Hhi. lia. }
  reflexivity.
Qed.

Lemma extract_int_decimal (old z : Z) (c : ascii) (rest : string) :
  0 <= z <= INT_MAX ->
  isdigit c = false ->
  extract_int old (mkIstream (decimal z ++ String c rest) false false)
  = (z, mkIstream (String c rest) false false).
Proof.
  intros [Hlo Hhi] Hc.
  rewrite extract_int_numeral;
    rewrite ?numeral_value_decimal; auto using decimal_digits_only.
Qed.

(** ** The menu *)

Lemma size_add_small (a b : Z) :
  0 <= a + b < SIZE_MOD -> size_add a b = a + b.
Proof. intros H. unfold size_add. now apply Z.mod_small. Qed.

Lemma to_size_t_small (z : Z) : 0 <= z < SIZE_MOD -> to_size_t z = z.
Proof. intros H. unfold to_size_t. now apply Z.mod_small. Qed.

Lemma size_nonneg {A : Type} (v : list A) : 0 <= size v.
Proof. unfold size. lia. Qed.

Lemma size_cons {A : Type} (a : A) (v : list A) : size (a :: v) = size v + 1.
Proof. unfold size. cbn [List.length]. lia. Qed.

Lemma menu_entries_numbered (acts : list LibraryAction.t) :
  forall (k : nat) (con : Console),
    Z.of_nat k + size acts < SIZE_MOD ->
    menu_entries acts (Z.of_nat k) con
    = mkConsole (cin con)
        (cout con
           ++ map menu_line (combine (seq (S k) (List.length acts)) acts)).
Proof.
  induction acts as [|a acts IH]; intros k con Hk.
  - destruct con as [i o]. cbn. now rewrite app_nil_r.
  - rewrite size_cons in Hk. pose proof (size_nonneg acts) as Hn.
    cbn [menu_entries]. rewrite size_add_small by lia.
    replace (Z.of_nat k + 1) with (Z.of_nat (S k)) by lia.
    rewrite IH by lia.
    cbn [print cin cout List.length seq combine map menu_line fst snd].
    now rewrite <- app_assoc.
Qed.

Lemma displayMenu_menu (lib : Library LibraryAction.t) (con : Console) :
  size (actions lib) + 1 < SIZE_MOD ->
  displayMenu lib con = mkConsole (cin con) (cout con ++ menu lib).
Proof.
  intros Hsize. pose proof (size_nonneg (actions lib)) as Hn.
  unfold displayMenu.
  rewrite (menu_entries_numbered (actions lib) 0) by (cbn [Z.of_nat]; lia).
  rewrite size_add_small by lia.
  unfold menu, numbered, print, clearScreen.
  cbn [cin cout LibraryAction.getTitle LibraryAction.title exitAction].
  rewrite <- !app_assoc. reflexivity.
Qed.

Lemma nth_error_combine_seq {A : Type} (l : list A) :
  forall (start i : nat) (a : A),
    nth_error l i = Some a ->
    nth_error (combine (seq start (List.length l)) l) i = Some ((start + i)%nat, a).
Proof.
  induction l as [|x l IH]; intros start i a H.
  - destruct i; discriminate H.
  - destruct i as [|i]; cbn [List.length seq combine nth_error] in *.
    + injection H as ->. now rewrite Nat.add_0_r.
    + rewrite (IH (S start) i a H). f_equal. f_equal. lia.
Qed.

Lemma numbered_length (acts : list LibraryAction.t) :
  List.length (numbered acts) = List.length acts.
Proof.
  unfold numbered.
  rewrite length_map, length_combine, length_seq. apply Nat.min_id.
Qed.

Lemma numbered_nth (acts : list LibraryAction.t) (i : nat) (a : LibraryAction.t) :
  nth_error acts i = Some a ->
  nth_error (numbered acts) i
  = Some (Text (decimal (Z.of_nat i + 1) ++ ". "
                  ++ LibraryAction.getTitle a ++ endl)).
Proof.
  intros H. unfold numbered.
  rewrite nth_error_map, (nth_error_combine_seq acts 1 i a H).
  cbn [option_map]. unfold menu_line. cbn [fst snd].
  replace (Z.of_nat (1 + i)) with (Z.of_nat i + 1) by lia. reflexivity.
Qed.

(** ** The registry during a run *)

Lemma call_registry (a : LibraryAction.t) (budget : nat) (st st' : RunState) :
  call a budget st = Ret st' ->
  actions (fst (fst st')) = actions (fst (fst st)).
Proof.
  destruct st as [[lib flag] con]. unfold call.
  destruct (LibraryAction.getAction a budget (books lib) _) as [[p w]| |];
    cbn [bind]; intros H; try discriminate H.
  injection H as <-. reflexivity.
Qed.

Lemma menu_iteration_registry (budget : nat) (st : RunState) (again : bool)
    (st' : RunState) :
  menu_iteration budget st = Ret (again, st') ->
  actions (fst (fst st')) = actions (fst (fst st)).
Proof.
  destruct st as [[lib flag] con]. unfold menu_iteration.
  destruct (read_choice budget lib 0 _) as [[choice con1]| |];
    cbn [bind]; intros H; try discriminate H.
  destruct (to_size_t choice =? size_add (size (actions lib)) 1).
  - destruct (call exitAction budget (lib, flag, con1)) as [st1| |] eqn:Hcall;
      cbn [bind] in H; try discriminate H.
    injection H as _ <-. exact (call_registry _ _ _ _ Hcall).
  - destruct (nth_error (actions lib) _) as [a|]; try discriminate H.
    destruct (call a budget _) as [st1| |] eqn:Hcall;
      cbn [bind] in H; try discriminate H.
    injection H as _ <-. exact (call_registry _ _ _ _ Hcall).
Qed.

Lemma run_loop_registry :
  forall (budget : nat) (st st' : RunState),
    run_loop budget st = Ret st' ->
    actions (fst (fst st')) = actions (fst (fst st)).
Proof.
  induction budget as [|budget IH]; intros st st' H; [discriminate H|].
  cbn [run_loop] in H.
  destruct (menu_iteration budget st) as [[again st1]| |] eqn:Hit;
    cbn [bind] in H; try discriminate H.
  apply menu_iteration_registry in Hit.
  destruct again.
  - rewrite (IH _ _ H). exact Hit.
  - injection H as <-. exact Hit.
Qed.

(** ** The choice *)

Lemma extract_int_range (old : Z) (s : istream) (v : Z) (s' : istream) :
  extract_int old s = (v, s') ->
  failbit s' = false ->
  INT_MIN <= v <= INT_MAX.
Proof.
  unfold extract_int.
  destruct (good s) eqn:Hgood; [| intros H; injection H as _ <-; discriminate].
  destruct (skipws (pending s)) as [|c0 buf];
    [intros H; injection H as _ <-; discriminate|].
  destruct (read_sign (String c0 buf)) as [negative buf1].
  destruct (read_digits buf1) as [ds rest].
  destruct ds as [|d ds]; [intros H; injection H as _ <-; discriminate|].
  destruct (_ <? INT_MIN) eqn:Hlo;
    [intros H; injection H as _ <-; discriminate|].
  destruct (INT_MAX <? _) eqn:Hhi;
    [intros H; injection H as _ <-; discriminate|].
  intros H _. injection H as <- _.
  apply Z.ltb_ge in Hlo, Hhi. split; assumption.
Qed.

Section Choice.

Variable lib : Library LibraryAction.t.
Hypothesis registry_fits : size (actions lib) + 1 < SIZE_MOD.

Lemma read_choice_failed (budget : nat) (c0 : Z) (con : Console) (v : Z)
    (s : istream) :
  extract_int c0 (cin con) = (v, s) ->
  failbit s = true ->
  read_choice (S budget) lib c0 con
  = read_choice budget lib v
      (mkConsole (ignore (clear s)) (cout con ++ refusal lib)).
Proof.
  intros Hread Hfail. cbn [read_choice print cin].
  rewrite Hread. cbn [with_cin cin]. rewrite Hfail.
  rewrite (displayMenu_menu lib _ registry_fits).
  unfold refusal, print, clearScreen, with_cin. cbn [cin cout].
  now rewrite <- !app_assoc.
Qed.

Lemma read_choice_read (budget : nat) (c0 : Z) (con : Console) (v : Z)
    (s : istream) :
  extract_int c0 (cin con) = (v, s) ->
  failbit s = false ->
  read_choice (S budget) lib c0 con
  = if (v <? 1) || (size (actions lib) + 1 <? to_size_t v)
    then read_choice budget lib v (mkConsole s (cout con ++ refusal lib))
    else Ret (v, mkConsole (ignore s) (cout con ++ [Text "Enter your choice: "])).
Proof.
  intros Hread Hfail. pose proof (size_nonneg (actions lib)) as Hn.
  cbn [read_choice print cin].
  rewrite Hread. cbn [with_cin cin]. rewrite Hfail.
  rewrite size_add_small by lia.
  destruct ((v <? 1) || (size (actions lib) + 1 <? to_size_t v)).
  - rewrite (displayMenu_menu lib _ registry_fits).
    unfold refusal, print, clearScreen, with_cin. cbn [cin cout].
    now rewrite <- !app_assoc.
  - reflexivity.
Qed.

Lemma read_choice_range :
  forall (budget : nat) (c0 : Z) (con : Console) (choice : Z) (con' : Console),
    read_choice budget lib c0 con = Ret (choice, con') ->
    1 <= choice <= size (actions lib) + 1.
Proof.
  induction budget as [|budget IH]; intros c0 con choice con' H;
    [discriminate H|].
  destruct (extract_int c0 (cin con)) as [v s] eqn:Hread.
  destruct (failbit s) eqn:Hfail.
  - rewrite (read_choice_failed _ _ _ _ _ Hread Hfail) in H. eapply IH, H.
  - rewrite (read_choice_read _ _ _ _ _ Hread Hfail) in H.
    destruct ((v <? 1) || (size (actions lib) + 1 <? to_size_t v)) eqn:Htest.
    + eapply IH, H.
    + injection H as <- _.
      apply orb_false_iff in Htest as [Hlo Hhi].
      apply Z.ltb_ge in Hlo, Hhi.
      pose proof (extract_int_range _ _ _ _ Hread Hfail) as [_ Hmax].
      rewrite to_size_t_small in Hhi;
        [lia | unfold INT_MAX, SIZE_MOD in *; lia].
Qed.

End Choice.

(** C8.  The menu on the terminal: after the banner the registered actions,
    numbered from 1 in the order of the registry, and a last line with the
    number after the last action and "Exit".  The registry itself never
    holds the exit action: no pass through the menu loop and no run changes
    it, and the one [main] builds has its three actions only. *)
Theorem displayMenu_renders :
  forall (lib : Library LibraryAction.t) (con : Console),
    size (actions lib) + 1 < SIZE_MOD ->
    displayMenu lib con = mkConsole (cin con) (cout con ++ menu lib)
    /\ (forall (i : nat) (a : LibraryAction.t),
           nth_error (actions lib) i = Some a ->
           nth_error (menu lib) (3 + i)
           = Some (Text (decimal (Z.of_nat i + 1) ++ ". "
                           ++ LibraryAction.getTitle a ++ endl)))
    /\ nth_error (menu lib) (3 + List.length (actions lib))
       = Some (Text (decimal (size (actions lib) + 1) ++ ". Exit" ++ endl))
    /\ List.length (menu lib) = (3 + List.length (actions lib) + 2)%nat
    /\ (forall (budget : nat) (st : RunState) (again : bool) (st' : RunState),
           menu_iteration budget st = Ret (again, st') ->
           actions (fst (fst st')) = actions (fst (fst st)))
    /\ (forall (budget : nat) (lib0 : Library LibraryAction.t) (con0 : Console)
               (st' : RunState),
           run budget lib0 con0 = Ret st' ->
           actions (fst (fst st')) = actions lib0)
    /\ map LibraryAction.getTitle (actions main_library)
       = ["Add a book"; "Search book"; "Display books"]%string.
Proof.
  intros lib con Hsize.
  split; [now apply displayMenu_menu|].
  split.
  { intros i a Ha. unfold menu.
    rewrite nth_error_app2 by (cbn [List.length]; lia).
    cbn [List.length]. replace (3 + i - 3)%nat with i by lia.
    rewrite nth_error_app1
      by (rewrite numbered_length; apply nth_error_Some; congruence).
    now apply numbered_nth. }
  split.
  { unfold menu.
    rewrite nth_error_app2 by (cbn [List.length]; lia).
    cbn [List.length].
    rewrite nth_error_app2 by (rewrite numbered_length; lia).
    rewrite numbered_length.
    replace (3 + List.length (actions lib) - 3 - List.length (actions lib))%nat
      with 0%nat by lia.
    reflexivity. }
  split.
  { unfold menu. rewrite !length_app, numbered_length. cbn [List.length]. lia. }
  split; [exact menu_iteration_registry|].
  split; [| reflexivity].
  intros budget lib0 con0 st' H. exact (run_loop_registry _ _ _ H).
Qed.

Lemma displayMenu_renders_witness :
  cout (displayMenu main_library (terminal ""))
  = [Clear; Text ("Welcome to the library!" ++ endl ++ endl);
     Text ("Please choose an action:" ++ endl);
     Text ("1. Add a book" ++ endl); Text ("2. Search book" ++ endl);
     Text ("3. Display books" ++ endl); Text ("4. Exit" ++ endl); Text endl]
  /\ nth_error (menu main_library) 4 = Some (Text ("2. Search book" ++ endl))
  /\ actions (fst (fst (main_library, false, terminal "")))
     = actions main_library.
Proof.
  assert (Hfits : size (actions main_library) + 1 < SIZE_MOD) by reflexivity.
  destruct (displayMenu_renders main_library (terminal "") Hfits)
    as [Hmenu [Hnth [_ [_ [_ [Hrun _]]]]]].
  split; [| split].
  - rewrite Hmenu. reflexivity.
  - apply (Hnth 1%nat (LibraryAction.mk "Search book" search_book)).
    reflexivity.
  - apply (Hrun 2%nat main_library (terminal ("4" ++ endl))
             (main_library, false,
              mkConsole (mkIstream "" false false)
                ([Clear] ++ menu main_library
                   ++ [Text "Enter your choice: "; Clear;
                       Text ("Thank you for using the library!" ++ endl)]))).
    reflexivity.
Defined.

Lemma in_range_test (z n : Z) :
  0 <= z < SIZE_MOD ->
  (z <? 1) || (n <? to_size_t z) = negb ((1 <=? z) && (z <=? n)).
Proof.
  intros Hz. rewrite to_size_t_small by assumption.
  destruct (Z.ltb_spec z 1), (Z.ltb_spec n z), (Z.leb_spec 1 z),
    (Z.leb_spec z n); cbn; lia || reflexivity.
Qed.

Section ChoiceRead.

Variable lib : Library LibraryAction.t.
Hypothesis registry_fits : size (actions lib) + 1 < SIZE_MOD.

(** A numeral at the front of the buffer decides: in range it is the
    choice, out of range the loop reads again. *)
Lemma read_choice_numeral (budget : nat) (c0 : Z) (con : Console) (z : Z)
    (c : ascii) (rest : string) :
  cin con = mkIstream (decimal z ++ String c rest) false false ->
  isdigit c = false ->
  0 <= z <= INT_MAX ->
  read_choice (S budget) lib c0 con
  = if (1 <=? z) && (z <=? size (actions lib) + 1)
    then Ret (z, mkConsole (mkIstream rest false false)
                   (cout con ++ [Text "Enter your choice: "]))
    else read_choice budget lib z
           (mkConsole (mkIstream (String c rest) false false)
              (cout con ++ refusal lib)).
Proof.
  intros Hcin Hc Hz.
  assert (Hread : extract_int c0 (cin con)
                  = (z, mkIstream (String c rest) false false))
    by (rewrite Hcin; now apply extract_int_decimal).
  rewrite (read_choice_read lib registry_fits budget c0 con _ _ Hread eq_refl).
  rewrite in_range_test by (unfold INT_MAX, SIZE_MOD in *; lia).
  destruct ((1 <=? z) && (z <=? size (actions lib) + 1)); reflexivity.
Qed.

End ChoiceRead.

(** C2 as the specification words it does not hold: "2abc" is no numeral,
    and the loop takes it as the choice 2 at once, with no error message and
    no second read. *)
Lemma non_numeric_token_accepted :
  numeric_token "2abc" = false
  /\ is_line "2abc" = true
  /\ read_choice 1 main_library 0 (terminal ("2abc" ++ endl))
     = Ret (2, mkConsole (mkIstream ("bc" ++ endl) false false)
                 [Text "Enter your choice: "])
  /\ ~ turned_down main_library (terminal ("2abc" ++ endl)).
Proof.
  split; [reflexivity|]. split; [reflexivity|]. split; [reflexivity|].
  intros H. destruct (H 0%nat 0) as [v [s Heq]]. discriminate Heq.
Qed.

(** ** Leaving the menu *)

(** The menu shows the labels of the registry and nothing else of it. *)
Lemma combine_labels (acts acts' : list LibraryAction.t) :
  map LibraryAction.getTitle acts' = map LibraryAction.getTitle acts ->
  forall start : nat,
    map menu_line (combine (seq start (List.length acts')) acts')
    = map menu_line (combine (seq start (List.length acts)) acts).
Proof.
  revert acts'. induction acts as [|a acts IH]; intros [|a' acts'] H start;
    try discriminate H; [reflexivity|].
  cbn [map] in H. injection H as Ha Hrest.
  cbn [List.length seq combine map]. rewrite (IH acts' Hrest (S start)).
  unfold menu_line at 1 3. cbn [fst snd]. now rewrite Ha.
Qed.

Lemma menu_labels (lib lib' : Library LibraryAction.t) :
  map LibraryAction.getTitle (actions lib')
  = map LibraryAction.getTitle (actions lib) ->
  menu lib' = menu lib.
Proof.
  intros H. unfold menu, numbered, size.
  rewrite (combine_labels _ _ H 1).
  apply (f_equal (@List.length string)) in H. rewrite !length_map in H.
  now rewrite H.
Qed.

Lemma after_exit (lib : Library LibraryAction.t) (flag : bool) (con : Console)
    (budget : nat) :
  call exitAction budget (lib, flag, con)
  = Ret (lib, false,
         mkConsole (cin con)
           (cout con ++ [Clear; Text ("Thank you for using the library!" ++ endl)])).
Proof.
  destruct lib as [bs acts].
  unfold call, exitAction, after_call, behind_reference, LibraryAction.getAction.
  cbn [LibraryAction.action bind books actions library running console
       clearScreen print cin cout].
  unfold print, clearScreen. cbn [cin cout]. now rewrite <- app_assoc.
Qed.

(** C4.  With [N] registered actions, the numeral of [N+1] and the enter
    key at the menu end the run: the farewell is the last thing on the
    terminal, the loop is left, and the library is as it was.  None of the
    registered callbacks is called: with any other callbacks under the same
    labels the run ends in the same way; so it does when the callbacks
    would not return at all. *)
Theorem exit_choice_ends_run :
  forall (lib : Library LibraryAction.t) (flag : bool) (con : Console)
         (rest : string) (budget : nat),
    size (actions lib) + 1 <= INT_MAX ->
    cin con
    = mkIstream (decimal (size (actions lib) + 1) ++ String newline rest)
        false false ->
    let final :=
      mkConsole (mkIstream rest false false)
        (cout con ++ [Clear] ++ menu lib
           ++ [Text "Enter your choice: "; Clear;
               Text ("Thank you for using the library!" ++ endl)]) in
    menu_iteration (S budget) (lib, flag, con) = Ret (false, (lib, false, final))
    /\ run (S (S budget)) lib con = Ret (lib, false, final)
    /\ (forall lib' : Library LibraryAction.t,
           map LibraryAction.getTitle (actions lib')
           = map LibraryAction.getTitle (actions lib) ->
           run (S (S budget)) lib' con = Ret (lib', false, final)).
Proof.
  assert (Hone :
    forall (lib : Library LibraryAction.t) (flag : bool) (con : Console)
           (rest : string) (budget : nat),
      size (actions lib) + 1 <= INT_MAX ->
      cin con
      = mkIstream (decimal (size (actions lib) + 1) ++ String newline rest)
          false false ->
      menu_iteration (S budget) (lib, flag, con)
      = Ret (false,
             (lib, false,
              mkConsole (mkIstream rest false false)
                (cout con ++ [Clear] ++ menu lib
                   ++ [Text "Enter your choice: "; Clear;
                       Text ("Thank you for using the library!" ++ endl)])))).
  { intros lib flag con rest budget Hmax Hcin.
    pose proof (size_nonneg (actions lib)) as Hn.
    assert (Hfits : size (actions lib) + 1 < SIZE_MOD)
      by (unfold INT_MAX, SIZE_MOD in *; lia).
    unfold menu_iteration.
    rewrite (displayMenu_menu lib _ Hfits).
    rewrite (read_choice_numeral lib Hfits budget 0 _
               (size (actions lib) + 1) newline rest);
      [| cbn [clearScreen cin]; exact Hcin | reflexivity | lia].
    rewrite !Z.leb_refl, (proj2 (Z.leb_le 1 _)) by lia.
    cbn [andb bind].
    rewrite size_add_small, to_size_t_small, Z.eqb_refl by lia.
    rewrite after_exit. cbn [bind cin cout clearScreen].
    now rewrite <- !app_assoc. }
  intros lib flag con rest budget Hmax Hcin final.
  assert (Hrun :
    forall lib' : Library LibraryAction.t,
      map LibraryAction.getTitle (actions lib')
      = map LibraryAction.getTitle (actions lib) ->
      run (S (S budget)) lib' con = Ret (lib', false, final)).
  { intros lib' Hlabels.
    assert (Hsize : size (actions lib') = size (actions lib)).
    { unfold size. apply (f_equal (@List.length string)) in Hlabels.
      rewrite !length_map in Hlabels. now rewrite Hlabels. }
    unfold run. cbn [run_loop].
    rewrite (Hone lib' true con rest budget);
      [| rewrite Hsize; exact Hmax | rewrite Hsize; exact Hcin].
    cbn [bind]. subst final. now rewrite (menu_labels lib lib' Hlabels). }
  split; [now apply Hone|].
  split; [now apply Hrun | exact Hrun].
Qed.

Lemma exit_choice_ends_run_witness :
  main 2 (terminal ("4" ++ endl))
  = Ret (main_library, false,
         mkConsole (mkIstream "" false false)
           ([Clear] ++ menu main_library
              ++ [Text "Enter your choice: "; Clear;
                  Text ("Thank you for using the library!" ++ endl)]))
  /\ run 2
       (mkLibrary []
          [LibraryAction.mk "Add a book" (fun _ _ _ => Starved);
           LibraryAction.mk "Search book" (fun _ _ _ => Undefined);
           LibraryAction.mk "Display books" (fun _ _ _ => Starved)])
       (terminal ("4" ++ endl))
     = Ret (mkLibrary []
              [LibraryAction.mk "Add a book" (fun _ _ _ => Starved);
               LibraryAction.mk "Search book" (fun _ _ _ => Undefined);
               LibraryAction.mk "Display books" (fun _ _ _ => Starved)],
            false,
            mkConsole (mkIstream "" false false)
              ([Clear] ++ menu main_library
                 ++ [Text "Enter your choice: "; Clear;
                     Text ("Thank you for using the library!" ++ endl)])).
Proof.
  assert (Hmax : size (actions main_library) + 1 <= INT_MAX)
    by (vm_compute; discriminate).
  destruct (exit_choice_ends_run main_library true (terminal ("4" ++ endl))
              "" 0%nat Hmax eq_refl) as [_ [Hmain Hany]].
  split.
  - exact Hmain.
  - apply (Hany (mkLibrary []
                   [LibraryAction.mk "Add a book" (fun _ _ _ => Starved);
                    LibraryAction.mk "Search book" (fun _ _ _ => Undefined);
                    LibraryAction.mk "Display books" (fun _ _ _ => Starved)])).
    reflexivity.
Defined.

(** ** Looking up a book *)

Lemma findBook_from_some (query : string) (bs : list Book.t) :
  forall k i : nat,
    findBook_from query bs k = Some i
    <-> exists j : nat,
          i = (k + j)%nat
          /\ (exists b, nth_error bs j = Some b /\ Book.getTitle b = query)
          /\ (forall (j' : nat) (b' : Book.t),
                 (j' < j)%nat -> nth_error bs j' = Some b' ->
                 Book.getTitle b' <> query).
Proof.
  induction bs as [|book bs IH]; intros k i; cbn [findBook_from].
  - split; [discriminate|].
    intros [j [_ [[b [Hb _]] _]]]. destruct j; discriminate Hb.
  - destruct (String.eqb_spec (Book.getTitle book) query) as [Heq | Hne].
    + split.
      * intros H. injection H as <-. exists 0%nat.
        split; [lia|]. split; [now exists book|]. intros j' b' Hlt. lia.
      * intros [j [-> [_ Hfirst]]]. destruct j as [|j]; [f_equal; lia|].
        elim (Hfirst 0%nat book); [lia | reflexivity | exact Heq].
    + rewrite IH. split.
      * intros [j [-> [[b [Hb Hq]] Hfirst]]]. exists (S j).
        split; [lia|]. split; [now exists b|].
        intros [|j'] b' Hlt Hb'.
        -- cbn in Hb'. injection Hb' as <-. exact Hne.
        -- apply (Hfirst j' b'); [lia | exact Hb'].
      * intros [j [-> [[b [Hb Hq]] Hfirst]]]. destruct j as [|j].
        -- cbn in Hb. injection Hb as <-. now elim Hne.
        -- exists j. split; [lia|]. split; [now exists b|].
           intros j' b' Hlt Hb'. apply (Hfirst (S j') b'); [lia | exact Hb'].
Qed.

Lemma findBook_from_none (query : string) (bs : list Book.t) :
  forall k : nat,
    findBook_from query bs k = None
    <-> forall b : Book.t, In b bs -> Book.getTitle b <> query.
Proof.
  induction bs as [|book bs IH]; intros k; cbn [findBook_from].
  - split; [intros _ b [] | reflexivity].
  - destruct (String.eqb_spec (Book.getTitle book) query) as [Heq | Hne].
    + split; [discriminate|]. intros H. elim (H book); [now left | exact Heq].
    + rewrite IH. split.
      * intros H b [<- | Hin]; [exact Hne | now apply H].
      * intros H b Hin. apply H. now right.
Qed.

Lemma findBook_from_titles (query : string) (bs : list Book.t) :
  forall (bs' : list Book.t) (k : nat),
    map Book.getTitle bs' = map Book.getTitle bs ->
    findBook_from query bs' k = findBook_from query bs k.
Proof.
  induction bs as [|book bs IH]; intros [|book' bs'] k H;
    try discriminate H; [reflexivity|].
  cbn [map] in H. injection H as Htitle Hrest.
  cbn [findBook_from]. rewrite Htitle. now rewrite (IH bs' (S k) Hrest).
Qed.

(** C1.  [findBook] returns the address of the first book, in the order of
    insertion, whose title is the query, character for character; author
    and year play no part.  It returns the null pointer when no title is the
    query, so also when the library is empty. *)
Theorem findBook_first_match :
  forall (A : Type) (lib : Library A) (query : string),
    (forall i : nat,
        fst (findBook query lib) = Some i
        <-> (exists b, deref lib i = Some b /\ Book.getTitle b = query)
            /\ (forall (j : nat) (b' : Book.t),
                   (j < i)%nat -> deref lib j = Some b' ->
                   Book.getTitle b' <> query))
    /\ (fst (findBook query lib) = None
        <-> forall b : Book.t, In b (books lib) -> Book.getTitle b <> query)
    /\ (books lib = [] -> fst (findBook query lib) = None)
    /\ (forall lib' : Library A,
           map Book.getTitle (books lib') = map Book.getTitle (books lib) ->
           fst (findBook query lib') = fst (findBook query lib))
    /\ fst (findBook "dune"
              (mkLibrary [Book.mk "Dune" "Frank Herbert" "1965"] (@nil A)))
       = None
    /\ fst (findBook "Dune"
              (mkLibrary [Book.mk "Dune" "Frank Herbert" "1965"] (@nil A)))
       = Some 0%nat.
Proof.
  intros A lib query. unfold findBook, deref. cbn [fst].
  split.
  { intros i. rewrite findBook_from_some. split.
    - intros [j [-> H]]. exact H.
    - intros H. exists i. split; [reflexivity | exact H]. }
  split; [apply findBook_from_none|].
  split.
  { intros H. rewrite H. reflexivity. }
  split.
  { intros lib' H. now apply findBook_from_titles. }
  split; reflexivity.
Qed.

Lemma findBook_first_match_witness :
  let dune := Book.mk "Dune" "Frank Herbert" "1965" in
  let dune' := Book.mk "Dune" "Someone Else" "2001" in
  let emma := Book.mk "Emma" "Jane Austen" "1815" in
  let lib := mkLibrary [emma; dune; dune'] (@nil string) in
  fst (findBook "Dune" lib) = Some 1%nat
  /\ fst (findBook "DUNE" lib) = None
  /\ fst (findBook "Dune" (mkLibrary [] (@nil string))) = None
  /\ fst (findBook "Dune" (mkLibrary [emma; dune'; dune] (@nil string)))
     = Some 1%nat.
Proof.
  intros dune dune' emma lib.
  destruct (findBook_first_match string lib "Dune")
    as [Hsome [_ [_ [Htitles _]]]].
  destruct (findBook_first_match string lib "DUNE") as [_ [Hnone _]].
  destruct (findBook_first_match string (mkLibrary [] (@nil string)) "Dune")
    as [_ [_ [Hempty _]]].
  split; [| split; [| split]].
  - apply (Hsome 1%nat). split.
    + exists dune. split; reflexivity.
    + intros [|j] b' Hlt Hb'; [| lia].
      injection Hb' as <-. discriminate.
  - apply Hnone. intros b [<- | [<- | [<- | []]]]; discriminate.
  - apply Hempty. reflexivity.
  - rewrite (Htitles (mkLibrary [emma; dune'; dune] (@nil string)));
      [| reflexivity].
    apply (Hsome 1%nat). split.
    + exists dune. split; reflexivity.
    + intros [|j] b' Hlt Hb'; [| lia].
      injection Hb' as <-. discriminate.
Defined.

(** C10.  Each operation of the library touches its own field: [addBook]
    puts the one book at the end of the books and leaves the registry,
    [addAction] puts the one action at the end of the registry and leaves
    the books, [findBook] leaves the library as it is. *)
Theorem store_operations_frame :
  (forall (A : Type) (book : Book.t) (lib : Library A),
      books (addBook book lib) = books lib ++ [book]
      /\ actions (addBook book lib) = actions lib)
  /\ (forall (name : string) (f : Callback) (lib : Library LibraryAction.t),
         actions (addAction name f lib)
         = actions lib ++ [LibraryAction.mk name f]
         /\ books (addAction name f lib) = books lib)
  /\ (forall (A : Type) (title : string) (lib : Library A),
         snd (findBook title lib) = lib
         /\ books (snd (findBook title lib)) = books lib
         /\ actions (snd (findBook title lib)) = actions lib).
Proof.
  split; [| split].
  - intros A book lib. split; reflexivity.
  - intros name f lib. split; reflexivity.
  - intros A title lib. repeat split; reflexivity.
Qed.

(** ** The books during a run *)

Lemma grows_refl (bs : list Book.t) : grows bs bs.
Proof. exists []. now rewrite app_nil_r. Qed.

Lemma grows_trans (a b c : list Book.t) : grows a b -> grows b c -> grows a c.
Proof.
  intros [m1 ->] [m2 ->]. exists (m1 ++ m2). now rewrite app_assoc.
Qed.

Lemma growing_captureless
    (body : nat -> list Book.t -> Console -> Outcome (list Book.t * Console)) :
  growing (captureless body).
Proof.
  intros budget param w param' w'. unfold captureless.
  destruct (body budget param (console w)) as [[p con]| |]; cbn [bind];
    intros H; try discriminate H.
  injection H as _ <-. apply grows_refl.
Qed.

Lemma growing_add_a_book : growing add_a_book.
Proof.
  intros budget param w param' w'. unfold add_a_book.
  destruct (Book.getBookFromInput budget (console w)) as [[book con]| |];
    cbn [bind]; intros H; try discriminate H.
  injection H as _ <-. cbn [library addBook books]. now exists [book].
Qed.

Lemma growing_search_book : growing search_book.
Proof.
  intros budget param w param' w'. unfold search_book.
  destruct (getValidatedString budget _ name_pattern _) as [[title con]| |];
    cbn [bind]; intros H; try discriminate H.
  unfold findBook in H.
  destruct (findBook_from title (books (library w)) 0) as [p|].
  - destruct (deref (library w) p) as [book|]; cbn [bind] in H;
      try discriminate H.
    injection H as _ <-. apply grows_refl.
  - cbn [bind] in H. injection H as _ <-. apply grows_refl.
Qed.

Lemma growing_display_books : growing display_books.
Proof. apply growing_captureless. Qed.

Lemma growing_exit : growing (LibraryAction.getAction exitAction).
Proof.
  intros budget param w param' w' H. cbn in H.
  injection H as _ <-. apply grows_refl.
Qed.

Lemma call_grows (a : LibraryAction.t) (budget : nat) (st st' : RunState) :
  growing (LibraryAction.getAction a) ->
  call a budget st = Ret st' ->
  grows (books (fst (fst st))) (books (fst (fst st'))).
Proof.
  destruct st as [[lib flag] con]. intros Hgrowing. unfold call.
  destruct (LibraryAction.getAction a budget (books lib) _)
    as [[p w]| |] eqn:Hcall; cbn [bind]; intros H; try discriminate H.
  injection H as <-. exact (Hgrowing _ _ _ _ _ Hcall).
Qed.

Lemma menu_iteration_grows (budget : nat) (st : RunState) (again : bool)
    (st' : RunState) :
  Forall (fun a => growing (LibraryAction.getAction a)) (actions (fst (fst st))) ->
  menu_iteration budget st = Ret (again, st') ->
  grows (books (fst (fst st))) (books (fst (fst st'))).
Proof.
  destruct st as [[lib flag] con]. cbn [fst]. intros Hall.
  unfold menu_iteration.
  destruct (read_choice budget lib 0 _) as [[choice con1]| |];
    cbn [bind]; intros H; try discriminate H.
  destruct (to_size_t choice =? size_add (size (actions lib)) 1).
  - destruct (call exitAction budget (lib, flag, con1)) as [st1| |] eqn:Hcall;
      cbn [bind] in H; try discriminate H.
    injection H as _ <-. exact (call_grows _ _ _ _ growing_exit Hcall).
  - destruct (nth_error (actions lib) _) as [a|] eqn:Ha; try discriminate H.
    destruct (call a budget _) as [st1| |] eqn:Hcall;
      cbn [bind] in H; try discriminate H.
    injection H as _ <-.
    rewrite Forall_forall in Hall.
    exact (call_grows a budget _ _ (Hall a (nth_error_In _ _ Ha)) Hcall).
Qed.

Lemma run_loop_grows :
  forall (budget : nat) (st st' : RunState),
    Forall (fun a => growing (LibraryAction.getAction a))
      (actions (fst (fst st))) ->
    run_loop budget st = Ret st' ->
    grows (books (fst (fst st))) (books (fst (fst st'))).
Proof.
  induction budget as [|budget IH]; intros st st' Hall H; [discriminate H|].
  cbn [run_loop] in H.
  destruct (menu_iteration budget st) as [[again st1]| |] eqn:Hit;
    cbn [bind] in H; try discriminate H.
  pose proof (menu_iteration_registry _ _ _ _ Hit) as Hreg.
  pose proof (menu_iteration_grows _ _ _ _ Hall Hit) as Hgrow.
  destruct again.
  - apply (grows_trans _ _ _ Hgrow). apply IH; [| exact H].
    now rewrite Hreg.
  - injection H as <-. exact Hgrow.
Qed.

Lemma main_registry_growing :
  Forall (fun a => growing (LibraryAction.getAction a)) (actions main_library).
Proof.
  repeat constructor.
  - exact growing_add_a_book.
  - exact growing_search_book.
  - exact growing_display_books.
Qed.

(** C5.  The books only grow.  After [addBook], [addAction] and [findBook],
    after every pass through the menu loop of the program and after every
    run of it, the books that were stored are the front of the books that
    are stored, in the same order. *)
Theorem books_only_grow :
  (forall (A : Type) (book : Book.t) (lib : Library A),
      grows (books lib) (books (addBook book lib)))
  /\ (forall (name : string) (f : Callback) (lib : Library LibraryAction.t),
         grows (books lib) (books (addAction name f lib)))
  /\ (forall (A : Type) (title : string) (lib : Library A),
         grows (books lib) (books (snd (findBook title lib))))
  /\ (forall (budget : nat) (bs : list Book.t) (flag : bool) (con : Console)
             (again : bool) (st' : RunState),
         menu_iteration budget (mkLibrary bs (actions main_library), flag, con)
         = Ret (again, st') ->
         grows bs (books (fst (fst st'))))
  /\ (forall (budget : nat) (bs : list Book.t) (con : Console) (st' : RunState),
         run budget (mkLibrary bs (actions main_library)) con = Ret st' ->
         grows bs (books (fst (fst st')))).
Proof.
  split; [| split; [| split; [| split]]].
  - intros A book lib. now exists [book].
  - intros name f lib. apply grows_refl.
  - intros A title lib. apply grows_refl.
  - intros budget bs flag con again st' H.
    exact (menu_iteration_grows budget
             (mkLibrary bs (actions main_library), flag, con) again st'
             main_registry_growing H).
  - intros budget bs con st' H.
    exact (run_loop_grows budget
             (mkLibrary bs (actions main_library), true, con) st'
             main_registry_growing H).
Qed.

Lemma books_only_grow_witness :
  let emma := Book.mk "Emma" "Jane Austen" "1815" in
  let dune := Book.mk "Dune" "Frank Herbert" "1965" in
  let lib := mkLibrary [emma] (actions main_library) in
  (exists st' : RunState,
      menu_iteration 2
        (lib, true, terminal (lines ["1"; "Dune"; "Frank Herbert"; "1965"]))
      = Ret (true, st')
      /\ books (fst (fst st')) = [emma; dune]
      /\ grows [emma] (books (fst (fst st'))))
  /\ (exists st' : RunState,
         run 5 lib
           (terminal (lines ["1"; "Dune"; "Frank Herbert"; "1965";
                             "2"; "Emma"; ""; "3"; ""; "4"]))
         = Ret st'
         /\ books (fst (fst st')) = [emma; dune]
         /\ grows [emma] (books (fst (fst st')))).
Proof.
  intros emma dune lib.
  destruct books_only_grow as [_ [_ [_ [Hpass Hrun]]]].
  split.
  - eexists. split; [vm_compute; reflexivity|]. split; [reflexivity|].
    eapply (Hpass 2%nat [emma] true
              (terminal (lines ["1"; "Dune"; "Frank Herbert"; "1965"])) true).
    vm_compute. reflexivity.
  - eexists. split; [vm_compute; reflexivity|]. split; [reflexivity|].
    eapply (Hrun 5%nat [emma]
              (terminal (lines ["1"; "Dune"; "Frank Herbert"; "1965";
                                "2"; "Emma"; ""; "3"; ""; "4"]))).
    vm_compute. reflexivity.
Defined.

(** ** Calling an action *)

Lemma dispatch (lib : Library LibraryAction.t) (flag : bool) (con : Console)
    (budget : nat) (choice : Z) (con1 : Console) :
  size (actions lib) + 1 < SIZE_MOD ->
  read_choice budget lib 0 (displayMenu lib (clearScreen con))
  = Ret (choice, con1) ->
  choice <> size (actions lib) + 1 ->
  exists a : LibraryAction.t,
    nth_error (actions lib) (Z.to_nat (choice - 1)) = Some a
    /\ menu_iteration budget (lib, flag, con)
       = (let* (_, w) := LibraryAction.getAction a budget (books lib)
                           (mkWorld (behind_reference lib) flag
                              (clearScreen con1)) in
          Ret (true, (after_call lib w, running w, console w))).
Proof.
  intros Hfits Hread Hne.
  pose proof (read_choice_range lib Hfits _ _ _ _ _ Hread) as [Hlo Hhi].
  destruct (nth_error (actions lib) (Z.to_nat (choice - 1))) as [a|] eqn:Ha.
  2: { apply nth_error_None in Ha. unfold size in *. lia. }
  exists a. split; [reflexivity|].
  unfold menu_iteration. rewrite Hread. cbn [bind].
  rewrite size_add_small by (pose proof (size_nonneg (actions lib)); lia).
  rewrite !to_size_t_small by lia.
  rewrite (proj2 (Z.eqb_neq _ _) Hne), Ha.
  unfold call.
  destruct (LibraryAction.getAction a budget (books lib) _) as [[p w]| |];
    reflexivity.
Qed.

(** C9.  A choice other than exit calls the action at position
    [choice - 1] on a vector of its own that holds the books of that moment.
    What the callee leaves in that vector is dropped when it returns: after
    a callback that captures nothing the stored books are what they were,
    whatever it did to its argument.  A callback that captured the library
    reaches the store through it, as "Add a book" does. *)
Theorem callbacks_get_snapshot :
  forall (lib : Library LibraryAction.t) (flag : bool) (con : Console)
         (budget : nat) (choice : Z) (con1 : Console),
    size (actions lib) + 1 < SIZE_MOD ->
    read_choice budget lib 0 (displayMenu lib (clearScreen con))
    = Ret (choice, con1) ->
    choice <> size (actions lib) + 1 ->
    (exists a : LibraryAction.t,
        nth_error (actions lib) (Z.to_nat (choice - 1)) = Some a
        /\ menu_iteration budget (lib, flag, con)
           = (let* (_, w) := LibraryAction.getAction a budget (books lib)
                               (mkWorld (behind_reference lib) flag
                                  (clearScreen con1)) in
              Ret (true, (after_call lib w, running w, console w)))
        /\ (forall body : nat -> list Book.t -> Console
                          -> Outcome (list Book.t * Console),
               LibraryAction.getAction a = captureless body ->
               forall (left_in_argument : list Book.t) (con' : Console),
                 body budget (books lib) (clearScreen con1)
                 = Ret (left_in_argument, con') ->
                 menu_iteration budget (lib, flag, con)
                 = Ret (true, (lib, flag, con'))))
    /\ (exists con' : Console,
           menu_iteration 2
             (main_library, true,
              terminal (lines ["1"; "Dune"; "Frank Herbert"; "1965"]))
           = Ret (true,
                  (addBook (Book.mk "Dune" "Frank Herbert" "1965") main_library,
                   true, con'))).
Proof.
  intros lib flag con budget choice con1 Hfits Hread Hne.
  split.
  - destruct (dispatch lib flag con budget choice con1 Hfits Hread Hne)
      as [a [Ha Hpass]].
    exists a. split; [exact Ha|]. split; [exact Hpass|].
    intros body Hbody left_in_argument con' Hret.
    rewrite Hpass, Hbody. unfold captureless.
    cbn [console library running]. rewrite Hret. cbn [bind].
    unfold after_call, behind_reference. cbn [library books running console].
    destruct lib as [bs acts]. reflexivity.
  - eexists. vm_compute. reflexivity.
Qed.

Lemma callbacks_get_snapshot_witness :
  let dune := Book.mk "Dune" "Frank Herbert" "1965" in
  let wipe : nat -> list Book.t -> Console -> Outcome (list Book.t * Console) :=
    fun _ _ con => Ret ([], print "wiped" con) in
  let lib := mkLibrary [dune] [LibraryAction.mk "Wipe" (captureless wipe)] in
  menu_iteration 1 (lib, true, terminal ("1" ++ endl))
  = Ret (true,
         (lib, true,
          mkConsole (mkIstream "" false false)
            ([Clear] ++ menu lib
               ++ [Text "Enter your choice: "; Clear; Text "wiped"]))).
Proof.
  intros dune wipe lib.
  destruct (callbacks_get_snapshot lib true (terminal ("1" ++ endl)) 1%nat 1
              (mkConsole (mkIstream "" false false)
                 ([Clear] ++ menu lib ++ [Text "Enter your choice: "])))
    as [[a [Ha [_ Hsnapshot]]] _].
  - reflexivity.
  - reflexivity.
  - discriminate.
  - injection Ha as <-.
    apply (Hsnapshot wipe eq_refl []). reflexivity.
Defined.

(** * Further properties of the program *)

(** ** Columns of the tables *)

Lemma length_spaces (n : nat) : String.length (spaces n) = n.
Proof. induction n as [|n IH]; simpl; [reflexivity | now rewrite IH]. Qed.

Lemma length_string_append (s t : string) :
  String.length (s ++ t) = (String.length s + String.length t)%nat.
Proof. induction s as [|c s IH]; simpl; [reflexivity | now rewrite IH]. Qed.

(** X2.  [left << setw(w)] fills a field up to the width [w] with spaces on
    the right and never cuts it: a text longer than the column is printed
    in full and pushes the rest of the row to the right. *)
Theorem left_setw_pads_never_cuts :
  forall (w : nat) (s : string),
    String.length (left_setw w s) = Nat.max w (String.length s)
    /\ (exists pad : string,
           left_setw w s = (s ++ pad)%string
           /\ all_chars (fun c => Ascii.eqb c " ") pad = true)
    /\ ((w <= String.length s)%nat -> left_setw w s = s).
Proof.
  intros w s. unfold left_setw. split; [| split].
  - rewrite length_string_append, length_spaces. lia.
  - exists (spaces (w - String.length s)). split; [reflexivity|].
    induction (w - String.length s)%nat as [|n IH]; simpl; auto.
  - intros Hle. replace (w - String.length s)%nat with 0%nat by lia.
    apply append_nil_r.
Qed.

Lemma left_setw_pads_never_cuts_witness :
  left_setw nameWidth "The Hitchhikers Guide to the Galaxy"
  = "The Hitchhikers Guide to the Galaxy"%string.
Proof.
  apply (proj2 (proj2 (left_setw_pads_never_cuts nameWidth
                         "The Hitchhikers Guide to the Galaxy"))).
  unfold nameWidth. simpl. lia.
Defined.

(** ** The reader at the end of the input *)

Lemma take_line_eof (line : string) :
  is_line line = true -> take_line line = (line, None).
Proof.
  unfold is_line. induction line as [|c line IH]; simpl; [reflexivity|].
  destruct (Ascii.eqb c newline); simpl; [discriminate|].
  intros H. now rewrite (IH H).
Qed.

Lemma getline_spent (s : istream) :
  good s = false \/ pending s = ""%string ->
  fst (getline s) = ""%string
  /\ good (snd (getline s)) = false.
Proof.
  intros H. unfold getline. destruct (good s) eqn:Hgood.
  - destruct H as [H | H]; [discriminate H|]. rewrite H. cbn. split; reflexivity.
  - cbn [fst snd]. split; [reflexivity|].
    unfold good, setfail. cbn [eofbit failbit negb]. apply andb_false_r.
Qed.

(** X3.  Once the input is used up, or the stream has failed,
    [getValidatedString] does not return any more when its pattern does not
    match the empty string: every further read yields the empty string, and
    the function calls itself again, whatever budget it is given. *)
Theorem getValidatedString_end_of_input :
  forall (prompt : string) (re : regex) (budget : nat) (con : Console),
    good (cin con) = false \/ pending (cin con) = ""%string ->
    regex_match "" re = false ->
    getValidatedString budget prompt re con = Starved.
Proof.
  intros prompt re budget. induction budget as [|budget IH];
    intros con Hspent Hre; [reflexivity|].
  cbn [getValidatedString].
  change (cin (print prompt con)) with (cin con).
  destruct (getline_spent (cin con) Hspent) as [Hline Hbad].
  destruct (getline (cin con)) as [input s]. cbn [fst snd] in Hline, Hbad.
  subst input. rewrite Hre. apply IH; [| exact Hre].
  left. exact Hbad.
Qed.

Lemma getValidatedString_end_of_input_witness :
  getValidatedString 50 "Enter title: " name_pattern (terminal "") = Starved
  /\ getValidatedString 50 "Enter year: " year_pattern
       (mkConsole (mkIstream ("1999" ++ endl) true false) [])
     = Starved.
Proof.
  split.
  - apply (getValidatedString_end_of_input "Enter title: " name_pattern 50
             (terminal "")).
    + right. reflexivity.
    + reflexivity.
  - apply (getValidatedString_end_of_input "Enter year: " year_pattern 50
             (mkConsole (mkIstream ("1999" ++ endl) true false) [])).
    + left. reflexivity.
    + reflexivity.
Defined.

(** X4.  A last line that the end of the input cuts off, with no newline
    after it, is read like any other: when it matches the pattern it is
    returned on the first attempt; the stream is then at its end. *)
Theorem getValidatedString_last_line :
  forall (prompt : string) (re : regex) (line : string) (con : Console)
         (budget : nat),
    cin con = mkIstream line false false ->
    is_line line = true ->
    regex_match line re = true ->
    getValidatedString (S budget) prompt re con
    = Ret (line,
           mkConsole (mkIstream "" true (String.eqb line ""))
             (cout con ++ [Text prompt])).
Proof.
  intros prompt re line con budget Hcin Hline Hre.
  cbn [getValidatedString print cin]. rewrite Hcin.
  unfold getline. cbn [good eofbit failbit negb andb pending].
  rewrite (take_line_eof line Hline), Hre. reflexivity.
Qed.

Lemma getValidatedString_last_line_witness :
  getValidatedString 1 "Enter year: " year_pattern (terminal "1965")
  = Ret ("1965"%string,
         mkConsole (mkIstream "" true false) [Text "Enter year: "]).
Proof.
  apply (getValidatedString_last_line "Enter year: " year_pattern "1965"
           (terminal "1965") 0).
  - reflexivity.
  - reflexivity.
  - reflexivity.
Defined.

(** ** The menu loop at the end of the input *)

Lemma cin_menu_entries (acts : list LibraryAction.t) :
  forall (i : Z) (con : Console), cin (menu_entries acts i con) = cin con.
Proof.
  induction acts as [|a acts IH]; intros i con; cbn [menu_entries];
    [reflexivity | now rewrite IH].
Qed.

Lemma cin_displayMenu (lib : Library LibraryAction.t) (con : Console) :
  cin (displayMenu lib con) = cin con.
Proof. unfold displayMenu. cbn [print cin]. now rewrite cin_menu_entries. Qed.

Lemma extract_int_spent (old : Z) (s : istream) :
  skipws (pending s) = ""%string ->
  failbit (snd (extract_int old s)) = true
  /\ skipws (pending (ignore (clear (snd (extract_int old s))))) = ""%string.
Proof.
  intros Hspent. unfold extract_int. destruct (good s).
  - rewrite Hspent. cbn. split; reflexivity.
  - cbn [snd setfail failbit]. split; [reflexivity|].
    unfold clear, ignore, setfail.
    cbn [pending good eofbit failbit negb andb].
    destruct (pending s) as [|c t]; [reflexivity|].
    cbn [pending]. cbn [skipws] in Hspent.
    destruct (isspace c); [exact Hspent | discriminate Hspent].
Qed.

Lemma read_choice_spent (lib : Library LibraryAction.t) :
  forall (budget : nat) (c0 : Z) (con : Console),
    skipws (pending (cin con)) = ""%string ->
    read_choice budget lib c0 con = Starved.
Proof.
  induction budget as [|budget IH]; intros c0 con Hspent; [reflexivity|].
  cbn [read_choice]. change (cin (print "Enter your choice: " con)) with (cin con).
  destruct (extract_int_spent c0 (cin con) Hspent) as [Hfail Hnext].
  destruct (extract_int c0 (cin con)) as [v s]. cbn [snd] in Hfail, Hnext.
  cbn [with_cin cin]. rewrite Hfail.
  apply IH. cbn [cin print]. rewrite cin_displayMenu. exact Hnext.
Qed.

(** X5.  With nothing but white space left of the input, the menu loop never
    hands on a choice and [Library::run] never returns: each read fails, the
    menu and the error message are shown again, and the loop reads again,
    whatever budget it is given.  The end of the input does not end the
    program. *)
Theorem run_end_of_input :
  forall (lib : Library LibraryAction.t) (budget : nat) (con : Console),
    skipws (pending (cin con)) = ""%string ->
    (forall c0 : Z, read_choice budget lib c0 con = Starved)
    /\ run budget lib con = Starved.
Proof.
  intros lib budget con Hspent. split.
  - intros c0. now apply read_choice_spent.
  - unfold run. destruct budget as [|budget]; [reflexivity|].
    cbn [run_loop]. unfold menu_iteration.
    rewrite read_choice_spent; [reflexivity|].
    rewrite cin_displayMenu. exact Hspent.
Qed.

Lemma run_end_of_input_witness :
  main 100 (terminal "") = Starved
  /\ main 100 (terminal (" " ++ endl ++ endl)) = Starved.
Proof.
  split.
  - apply (run_end_of_input main_library 100 (terminal "")). reflexivity.
  - apply (run_end_of_input main_library 100 (terminal (" " ++ endl ++ endl))).
    reflexivity.
Defined.

(** ** More on the choice *)

Lemma skipws_leading (ws buf : string) :
  all_chars isspace ws = true -> skipws (ws ++ buf) = skipws buf.
Proof.
  induction ws as [|c ws IH]; cbn [append all_chars skipws]; [reflexivity|].
  intros H. apply andb_true_iff in H as [Hc Hws]. rewrite Hc. now apply IH.
Qed.

(** X11.  Spaces, tabs and empty lines typed before the choice make no
    difference: the read skips them. *)
Theorem read_choice_skips_white_space :
  forall (lib : Library LibraryAction.t) (budget : nat) (c0 : Z)
         (ws buf : string) (out : list Output),
    all_chars isspace ws = true ->
    read_choice budget lib c0 (mkConsole (mkIstream (ws ++ buf) false false) out)
    = read_choice budget lib c0 (mkConsole (mkIstream buf false false) out).
Proof.
  intros lib budget c0 ws buf out Hws.
  destruct budget as [|budget]; [reflexivity|].
  assert (Hread : extract_int c0 (mkIstream (ws ++ buf) false false)
                  = extract_int c0 (mkIstream buf false false)).
  { unfold extract_int. cbn [good eofbit failbit negb andb pending].
    now rewrite (skipws_leading ws buf Hws). }
  cbn [read_choice print cin]. rewrite Hread. reflexivity.
Qed.

Lemma read_choice_skips_white_space_witness :
  read_choice 1 main_library 0
    (terminal (endl ++ "   " ++ endl ++ "3" ++ endl))
  = Ret (3, mkConsole (mkIstream "" false false) [Text "Enter your choice: "]).
Proof.
  exact (eq_trans
           (read_choice_skips_white_space main_library 1 0
              (endl ++ "   " ++ endl) ("3" ++ endl) [] eq_refl)
           eq_refl).
Defined.

Lemma extract_int_overflow (old : Z) (ds : string) (c : ascii) (rest : string) :
  digits_only ds = true ->
  isdigit c = false ->
  INT_MAX < numeral_value 0 ds ->
  extract_int old (mkIstream (ds ++ String c rest) false false)
  = (INT_MAX, mkIstream (String c rest) false true).
Proof.
  intros Hds Hc Hbig.
  destruct (digits_only_inv ds Hds) as [d [ds' [-> [Hd Hds']]]].
  assert (Hall : all_chars isdigit (String d ds') = true)
    by (simpl; now rewrite Hd, Hds').
  destruct (digit_not_sign d Hd) as [Hminus Hplus].
  unfold extract_int. cbn [good eofbit failbit negb andb pending].
  cbn [append skipws]. rewrite (digit_not_space d Hd).
  cbn [read_sign]. rewrite Hminus, Hplus.
  change (String d (ds' ++ String c rest))
    with (String d ds' ++ String c rest)%string.
  rewrite (read_digits_stop _ _ _ Hall Hc).
  cbn [String.eqb].
  destruct (numeral_value 0 (String d ds') <? INT_MIN) eqn:Hlo.
  { apply Z.ltb_lt in Hlo. unfold INT_MIN, INT_MAX in *. lia. }
  rewrite (proj2 (Z.ltb_lt _ _) Hbig). reflexivity.
Qed.

(** X10.  A numeral too large for [int] is not taken modulo anything: the
    read fails, the menu and the error message come again, the character
    after the numeral is dropped and the loop reads on. *)
Theorem numeral_too_large_turned_down :
  forall (lib : Library LibraryAction.t) (budget : nat) (c0 : Z)
         (con : Console) (ds : string) (c : ascii) (rest : string),
    size (actions lib) + 1 < SIZE_MOD ->
    cin con = mkIstream (ds ++ String c rest) false false ->
    digits_only ds = true ->
    isdigit c = false ->
    INT_MAX < numeral_value 0 ds ->
    read_choice (S budget) lib c0 con
    = read_choice budget lib INT_MAX
        (mkConsole (mkIstream rest false false) (cout con ++ refusal lib)).
Proof.
  intros lib budget c0 con ds c rest Hfits Hcin Hds Hc Hbig.
  assert (Hread : extract_int c0 (cin con)
                  = (INT_MAX, mkIstream (String c rest) false true))
    by (rewrite Hcin; now apply extract_int_overflow).
  exact (read_choice_failed lib Hfits budget c0 con _ _ Hread eq_refl).
Qed.

Lemma numeral_too_large_turned_down_witness :
  read_choice 2 main_library 0 (terminal ("4294967298" ++ endl ++ "2" ++ endl))
  = read_choice 1 main_library INT_MAX
      (mkConsole (mkIstream ("2" ++ endl) false false) (refusal main_library)).
Proof.
  apply (numeral_too_large_turned_down main_library 1 0
           (terminal ("4294967298" ++ endl ++ "2" ++ endl))
           "4294967298" newline ("2" ++ endl)).
  - reflexivity.
  - reflexivity.
  - reflexivity.
  - reflexivity.
  - reflexivity.
Defined.

(** ** How a run ends *)

Lemma menu_iteration_break (budget : nat) (st st' : RunState) :
  menu_iteration budget st = Ret (false, st') ->
  snd (fst st') = false
  /\ exists out : list Output, cout (snd st') = out ++ farewell.
Proof.
  destruct st as [[lib flag] con]. unfold menu_iteration.
  destruct (read_choice budget lib 0 _) as [[choice con1]| |];
    cbn [bind]; intros H; try discriminate H.
  destruct (to_size_t choice =? size_add (size (actions lib)) 1).
  - rewrite after_exit in H. cbn [bind] in H. injection H as <-.
    cbn [fst snd cout]. split; [reflexivity|]. now exists (cout con1).
  - destruct (nth_error (actions lib) _) as [a|]; try discriminate H.
    destruct (call a budget _) as [st1| |]; cbn [bind] in H; discriminate H.
Qed.

(** X6.  [Library::run] returns in one way only, through the exit action:
    whenever a run returns, [running] is false and the farewell is the last
    thing on the terminal. *)
Theorem run_returns_by_exit_only :
  forall (budget : nat) (st st' : RunState),
    run_loop budget st = Ret st' ->
    snd (fst st') = false
    /\ exists out : list Output, cout (snd st') = out ++ farewell.
Proof.
  induction budget as [|budget IH]; intros st st' H; [discriminate H|].
  cbn [run_loop] in H.
  destruct (menu_iteration budget st) as [[again st1]| |] eqn:Hit;
    cbn [bind] in H; try discriminate H.
  destruct again.
  - exact (IH _ _ H).
  - injection H as <-. exact (menu_iteration_break _ _ _ Hit).
Qed.

Lemma run_returns_by_exit_only_witness :
  exists st' : RunState,
    main 4 (terminal (lines ["3"; ""; "4"])) = Ret st'
    /\ snd (fst st') = false
    /\ exists out : list Output, cout (snd st') = out ++ farewell.
Proof.
  eexists. split; [vm_compute; reflexivity|].
  apply (run_returns_by_exit_only 4
           (main_library, true, terminal (lines ["3"; ""; "4"]))).
  vm_compute. reflexivity.
Defined.

(** ** Adding and looking up *)

Lemma findBook_from_snoc (query : string) (book : Book.t) (bs : list Book.t) :
  forall k : nat,
    findBook_from query (bs ++ [book]) k
    = match findBook_from query bs k with
      | Some i => Some i
      | None => if has_title query book
                then Some (k + List.length bs)%nat else None
      end.
Proof.
  induction bs as [|b bs IH]; intros k; cbn [app findBook_from List.length].
  - unfold has_title. rewrite Nat.add_0_r.
    destruct (String.eqb (Book.getTitle book) query); reflexivity.
  - destruct (String.eqb (Book.getTitle b) query); [reflexivity|].
    rewrite IH. now replace (S k + List.length bs)%nat
                  with (k + S (List.length bs))%nat by lia.
Qed.

(** X8.  Looking up after adding: a query that found a book before finds
    the same one (a new book never hides an older one of the same title);
    a query that found none finds the new book when its title is the query,
    at the end of the books, and nothing otherwise. *)
Theorem findBook_after_addBook :
  forall (A : Type) (query : string) (book : Book.t) (lib : Library A),
    fst (findBook query (addBook book lib))
    = match fst (findBook query lib) with
      | Some i => Some i
      | None => if has_title query book
                then Some (List.length (books lib)) else None
      end.
Proof.
  intros A query book lib. unfold findBook, addBook. cbn [fst books].
  now rewrite findBook_from_snoc.
Qed.

Lemma findBook_from_find (query : string) (bs : list Book.t) :
  forall k : nat,
    match findBook_from query bs k with
    | Some i => nth_error bs (i - k)
    | None => None
    end = find (has_title query) bs.
Proof.
  induction bs as [|b bs IH]; intros k; cbn [findBook_from find];
    [reflexivity|].
  unfold has_title at 1.
  destruct (String.eqb (Book.getTitle b) query).
  - now rewrite Nat.sub_diag.
  - rewrite <- (IH (S k)).
    destruct (findBook_from query bs (S k)) as [i|] eqn:Hi; [| reflexivity].
    apply findBook_from_some in Hi as [j [-> _]].
    replace (S k + j - k)%nat with (S j) by lia.
    replace (S k + j - S k)%nat with j by lia. reflexivity.
Qed.

(** X9.  A pointer that [findBook] returns is never dangling: it is null or
    the address of a stored book, and what it points to is the first book
    of the list with the title asked for. *)
Theorem findBook_points_to_first :
  forall (A : Type) (query : string) (lib : Library A),
    match fst (findBook query lib) with
    | Some p => deref lib p
    | None => None
    end = find (has_title query) (books lib)
    /\ (forall p : nat,
           fst (findBook query lib) = Some p ->
           exists book : Book.t,
             deref lib p = Some book /\ Book.getTitle book = query).
Proof.
  intros A query lib. unfold findBook, deref. cbn [fst]. split.
  - rewrite <- (findBook_from_find query (books lib) 0).
    destruct (findBook_from query (books lib) 0); [| reflexivity].
    now rewrite Nat.sub_0_r.
  - intros p Hp. apply findBook_from_some in Hp as [j [-> [Hb _]]]. exact Hb.
Qed.

Lemma findBook_points_to_first_witness :
  let emma := Book.mk "Emma" "Jane Austen" "1815" in
  let dune := Book.mk "Dune" "Frank Herbert" "1965" in
  exists book : Book.t,
    deref (mkLibrary [emma; dune] (@nil string)) 1 = Some book
    /\ Book.getTitle book = "Dune"%string.
Proof.
  intros emma dune.
  apply (proj2 (findBook_points_to_first string "Dune"
                  (mkLibrary [emma; dune] (@nil string))) 1%nat).
  reflexivity.
Defined.

(** ** What the actions show *)

Lemma print_rows (bs : list Book.t) :
  forall con : Console,
    fold_left (fun con book => print (table_row book) con) bs con
    = mkConsole (cin con)
        (cout con ++ map (fun book => Text (table_row book)) bs).
Proof.
  induction bs as [|b bs IH]; intros con; cbn [fold_left map].
  - destruct con as [i o]. cbn. now rewrite app_nil_r.
  - rewrite IH. cbn [print cin cout]. now rewrite <- app_assoc.
Qed.

Lemma display_books_result :
  forall (budget : nat) (bs : list Book.t) (w : World),
    display_books budget bs w
    = Ret (bs,
           mkWorld (library w) (running w)
             (mkConsole (get (cin (console w)))
                (cout (console w) ++ display_report bs ++ [press_enter_text]))).
Proof.
  intros budget bs w. unfold display_books, captureless. cbn [bind].
  do 2 f_equal. f_equal.
  destruct bs as [|b bs].
  - unfold press_enter, print, with_cin. cbn [cin cout display_report].
    f_equal. now rewrite <- !app_assoc.
  - rewrite print_rows.
    unfold press_enter, print, with_cin, press_enter_text.
    cbn [cin cout display_report].
    f_equal. now rewrite <- !app_assoc.
Qed.


(** X1.  "Display books" shows the books it is handed: the box "No books to
    display" for none, and otherwise the head of the table, one row per
    book in the order of the list, and the bottom line.  Then it asks for
    the enter key and takes one character off the input.  It returns its
    argument and leaves the library as it is. *)
Theorem display_books_shows_all :
  forall (budget : nat) (bs : list Book.t) (w : World),
    display_books budget bs w
    = Ret (bs,
           mkWorld (library w) (running w)
             (mkConsole (get (cin (console w)))
                (cout (console w) ++ display_report bs ++ [press_enter_text]))).
Proof. exact display_books_result. Qed.

(** ** Registering an action *)

Lemma numbered_from_snoc (a : LibraryAction.t) (acts : list LibraryAction.t) :
  forall start : nat,
    map menu_line (combine (seq start (List.length (acts ++ [a]))) (acts ++ [a]))
    = map menu_line (combine (seq start (List.length acts)) acts)
      ++ [menu_line ((start + List.length acts)%nat, a)].
Proof.
  induction acts as [|x acts IH]; intros start;
    cbn [app List.length seq combine map].
  - now rewrite Nat.add_0_r.
  - rewrite (IH (S start)).
    now replace (S start + List.length acts)%nat
      with (start + S (List.length acts))%nat by lia.
Qed.

(** X13.  Registering an action puts it at the end of the registry: the
    actions registered before keep their positions and their numbers in the
    menu, the new label comes after them under the number the exit line had,
    and the exit line moves one down. *)
Theorem addAction_extends_menu :
  forall (name : string) (f : Callback) (lib : Library LibraryAction.t)
         (con : Console),
    size (actions lib) + 2 < SIZE_MOD ->
    displayMenu (addAction name f lib) con
    = mkConsole (cin con)
        (cout con
           ++ [Clear; Text ("Welcome to the library!" ++ endl ++ endl);
               Text ("Please choose an action:" ++ endl)]
           ++ numbered (actions lib)
           ++ [Text (decimal (size (actions lib) + 1) ++ ". " ++ name ++ endl);
               Text (decimal (size (actions lib) + 2) ++ ". Exit" ++ endl);
               Text endl])
    /\ nth_error (actions (addAction name f lib)) (List.length (actions lib))
       = Some (LibraryAction.mk name f)
    /\ (forall (i : nat) (a : LibraryAction.t),
           nth_error (actions lib) i = Some a ->
           nth_error (actions (addAction name f lib)) i = Some a).
Proof.
  intros name f lib con Hfits.
  assert (Hsize : size (actions (addAction name f lib)) = size (actions lib) + 1).
  { unfold addAction, size. cbn [actions]. rewrite length_app. cbn. lia. }
  split; [| split].
  - rewrite displayMenu_menu by (rewrite Hsize; lia).
    unfold menu. rewrite Hsize. unfold numbered, addAction. cbn [actions].
    rewrite numbered_from_snoc. unfold menu_line, LibraryAction.getTitle.
    cbn [fst snd LibraryAction.title].
    replace (Z.of_nat (1 + List.length (actions lib)))
      with (size (actions lib) + 1) by (unfold size; lia).
    replace (size (actions lib) + 1 + 1) with (size (actions lib) + 2) by lia.
    now rewrite <- !app_assoc.
  - unfold addAction. cbn [actions].
    rewrite nth_error_app2 by lia. now rewrite Nat.sub_diag.
  - intros i a Ha. unfold addAction. cbn [actions].
    rewrite nth_error_app1; [exact Ha | apply nth_error_Some; congruence].
Qed.

Lemma addAction_extends_menu_witness :
  cout (displayMenu
          (addAction "Remove a book" (fun _ param w => Ret (param, w)) main_library)
          (terminal ""))
  = [Clear; Text ("Welcome to the library!" ++ endl ++ endl);
     Text ("Please choose an action:" ++ endl);
     Text ("1. Add a book" ++ endl); Text ("2. Search book" ++ endl);
     Text ("3. Display books" ++ endl); Text ("4. Remove a book" ++ endl);
     Text ("5. Exit" ++ endl); Text endl].
Proof.
  assert (Hfits : size (actions main_library) + 2 < SIZE_MOD) by reflexivity.
  rewrite (proj1 (addAction_extends_menu "Remove a book"
                    (fun _ param w => Ret (param, w)) main_library
                    (terminal "") Hfits)).
  reflexivity.
Defined.

(** ** No undefined behaviour *)

Lemma defined_bind {A B : Type} (m : Outcome A) (k : A -> Outcome B) :
  defined m -> (forall a, m = Ret a -> defined (k a)) -> defined (bind m k).
Proof.
  destruct m as [a| |]; cbn; intros Hm Hk; [now apply Hk | exact I | exact Hm].
Qed.

Lemma getValidatedString_defined (prompt : string) (re : regex) :
  forall (budget : nat) (con : Console),
    defined (getValidatedString budget prompt re con).
Proof.
  induction budget as [|budget IH]; intros con; [exact I|].
  cbn [getValidatedString].
  destruct (getline (cin (print prompt con))) as [input s].
  destruct (regex_match input re); [exact I | apply IH].
Qed.

Lemma getBookFromInput_defined (budget : nat) (con : Console) :
  defined (Book.getBookFromInput budget con).
Proof.
  unfold Book.getBookFromInput.
  apply defined_bind; [apply getValidatedString_defined|]. intros [t c1] _.
  apply defined_bind; [apply getValidatedString_defined|]. intros [a c2] _.
  apply defined_bind; [apply getValidatedString_defined|]. intros [y c3] _.
  exact I.
Qed.

Lemma safe_add_a_book : safe add_a_book.
Proof.
  intros budget param w. unfold add_a_book.
  apply defined_bind; [apply getBookFromInput_defined|].
  intros [book con] _. exact I.
Qed.

Lemma safe_search_book : safe search_book.
Proof.
  intros budget param w. unfold search_book.
  apply defined_bind; [apply getValidatedString_defined|].
  intros [title con] _. unfold findBook.
  destruct (findBook_from title (books (library w)) 0) as [p|] eqn:Hp.
  - apply findBook_from_some in Hp as [j [-> [[b [Hb _]] _]]].
    unfold deref. cbn [Nat.add]. rewrite Hb. exact I.
  - exact I.
Qed.

Lemma safe_display_books : safe display_books.
Proof. intros budget param w. now rewrite display_books_result. Qed.

Lemma safe_exit : safe (LibraryAction.getAction exitAction).
Proof. intros budget param w. exact I. Qed.

Lemma read_choice_defined (lib : Library LibraryAction.t) :
  forall (budget : nat) (c0 : Z) (con : Console),
    defined (read_choice budget lib c0 con).
Proof.
  induction budget as [|budget IH]; intros c0 con; [exact I|].
  cbn [read_choice].
  destruct (extract_int c0 (cin (print "Enter your choice: " con))) as [v s].
  destruct (failbit (cin (with_cin s (print "Enter your choice: " con))));
    [apply IH|].
  destruct ((v <? 1) || (size_add (size (actions lib)) 1 <? to_size_t v));
    [apply IH | exact I].
Qed.

Lemma call_defined (a : LibraryAction.t) (budget : nat) (st : RunState) :
  safe (LibraryAction.getAction a) -> defined (call a budget st).
Proof.
  destruct st as [[lib flag] con]. intros Hsafe. unfold call.
  apply defined_bind; [apply Hsafe|]. intros [p w] _. exact I.
Qed.

Lemma menu_iteration_defined (budget : nat) (st : RunState) :
  size (actions (fst (fst st))) + 1 < SIZE_MOD ->
  Forall (fun a => safe (LibraryAction.getAction a)) (actions (fst (fst st))) ->
  defined (menu_iteration budget st).
Proof.
  destruct st as [[lib flag] con]. cbn [fst]. intros Hfits Hsafe.
  unfold menu_iteration.
  apply defined_bind; [apply read_choice_defined|].
  intros [choice con1] Hread.
  pose proof (read_choice_range lib Hfits _ _ _ _ _ Hread) as [Hlo Hhi].
  pose proof (size_nonneg (actions lib)) as Hn.
  rewrite size_add_small, !to_size_t_small by lia.
  destruct (choice =? size (actions lib) + 1) eqn:Hexit.
  - apply defined_bind; [apply call_defined, safe_exit|]. intros st1 _. exact I.
  - apply Z.eqb_neq in Hexit.
    destruct (nth_error (actions lib) (Z.to_nat (choice - 1))) as [a|] eqn:Ha.
    + apply defined_bind; [| intros st1 _; exact I].
      apply call_defined. rewrite Forall_forall in Hsafe.
      exact (Hsafe a (nth_error_In _ _ Ha)).
    + apply nth_error_None in Ha. unfold size in *. lia.
Qed.

Lemma run_loop_defined :
  forall (budget : nat) (st : RunState),
    size (actions (fst (fst st))) + 1 < SIZE_MOD ->
    Forall (fun a => safe (LibraryAction.getAction a)) (actions (fst (fst st))) ->
    defined (run_loop budget st).
Proof.
  induction budget as [|budget IH]; intros st Hfits Hsafe; [exact I|].
  cbn [run_loop].
  apply defined_bind; [now apply menu_iteration_defined|].
  intros [again st1] Hit.
  apply menu_iteration_registry in Hit.
  destruct again; [| exact I].
  apply IH; now rewrite Hit.
Qed.

Lemma main_registry_safe :
  Forall (fun a => safe (LibraryAction.getAction a)) (actions main_library).
Proof.
  unfold main_library, addAction. cbn [actions app].
  apply Forall_cons; [exact safe_add_a_book|].
  apply Forall_cons; [exact safe_search_book|].
  apply Forall_cons; [exact safe_display_books | apply Forall_nil].
Qed.

(** X7.  The program has no undefined behaviour, whatever is typed and
    whatever books are stored: [actions[choice - 1]] is always inside the
    registry, and "Search book" dereferences [foundBook] only when it points
    to a stored book.  A run returns or goes on; it never goes wrong. *)
Theorem main_never_undefined :
  forall (budget : nat) (bs : list Book.t) (con : Console),
    defined (run budget (mkLibrary bs (actions main_library)) con)
    /\ defined (main budget con).
Proof.
  intros budget bs con. split.
  - apply run_loop_defined; [reflexivity | exact main_registry_safe].
  - apply run_loop_defined; [reflexivity | exact main_registry_safe].
Qed.

(** ** The stored books are valid *)

Section Keeping.

Variable P : list Book.t -> Prop.

Lemma call_keeps (a : LibraryAction.t) (budget : nat) (st st' : RunState) :
  keeps P (LibraryAction.getAction a) ->
  P (books (fst (fst st))) ->
  call a budget st = Ret st' ->
  P (books (fst (fst st'))).
Proof.
  destruct st as [[lib flag] con]. cbn [fst]. intros Hkeeps HP. unfold call.
  destruct (LibraryAction.getAction a budget (books lib) _)
    as [[p w]| |] eqn:Hcall; cbn [bind]; intros H; try discriminate H.
  injection H as <-.
  exact (Hkeeps budget (books lib)
           (mkWorld (behind_reference lib) flag con) p w HP Hcall).
Qed.

Lemma keeps_exit : keeps P (LibraryAction.getAction exitAction).
Proof.
  intros budget param w param' w' HP H. cbn in H.
  injection H as _ <-. exact HP.
Qed.

Lemma menu_iteration_keeps (budget : nat) (st : RunState) (again : bool)
    (st' : RunState) :
  Forall (fun a => keeps P (LibraryAction.getAction a)) (actions (fst (fst st))) ->
  P (books (fst (fst st))) ->
  menu_iteration budget st = Ret (again, st') ->
  P (books (fst (fst st'))).
Proof.
  destruct st as [[lib flag] con]. cbn [fst]. intros Hall HP.
  unfold menu_iteration.
  destruct (read_choice budget lib 0 _) as [[choice con1]| |];
    cbn [bind]; intros H; try discriminate H.
  destruct (to_size_t choice =? size_add (size (actions lib)) 1).
  - destruct (call exitAction budget (lib, flag, con1)) as [st1| |] eqn:Hcall;
      cbn [bind] in H; try discriminate H.
    injection H as _ <-.
    exact (call_keeps exitAction budget (lib, flag, con1) st1 keeps_exit HP Hcall).
  - destruct (nth_error (actions lib) _) as [a|] eqn:Ha; try discriminate H.
    destruct (call a budget _) as [st1| |] eqn:Hcall;
      cbn [bind] in H; try discriminate H.
    injection H as _ <-. rewrite Forall_forall in Hall.
    exact (call_keeps a budget (lib, flag, clearScreen con1) st1
             (Hall a (nth_error_In _ _ Ha)) HP Hcall).
Qed.

Lemma run_loop_keeps :
  forall (budget : nat) (st st' : RunState),
    Forall (fun a => keeps P (LibraryAction.getAction a))
      (actions (fst (fst st))) ->
    P (books (fst (fst st))) ->
    run_loop budget st = Ret st' ->
    P (books (fst (fst st'))).
Proof.
  induction budget as [|budget IH]; intros st st' Hall HP H; [discriminate H|].
  cbn [run_loop] in H.
  destruct (menu_iteration budget st) as [[again st1]| |] eqn:Hit;
    cbn [bind] in H; try discriminate H.
  pose proof (menu_iteration_registry _ _ _ _ Hit) as Hreg.
  pose proof (menu_iteration_keeps _ _ _ _ Hall HP Hit) as HP1.
  destruct again.
  - apply (IH st1 st'); [now rewrite Hreg | exact HP1 | exact H].
  - injection H as <-. exact HP1.
Qed.

End Keeping.

Lemma main_registry_keeps_valid :
  Forall (fun a => keeps (Forall valid_book) (LibraryAction.getAction a))
    (actions main_library).
Proof.
  repeat constructor.
  - intros budget param w param' w' HP. unfold LibraryAction.getAction.
    cbn [LibraryAction.action]. unfold add_a_book.
    destruct (Book.getBookFromInput budget (console w)) as [[book con]| |] eqn:Hb;
      cbn [bind]; intros H; try discriminate H.
    injection H as _ <-. cbn [library addBook books].
    apply Forall_app. split; [exact HP|]. constructor; [| constructor].
    exact (getBookFromInput_sound _ _ _ _ Hb).
  - intros budget param w param' w' HP H.
    unfold LibraryAction.getAction in H. cbn [LibraryAction.action] in H.
    unfold search_book in H.
    destruct (getValidatedString budget _ name_pattern _) as [[title con]| |];
      cbn [bind] in H; try discriminate H.
    unfold findBook in H.
    destruct (findBook_from title (books (library w)) 0) as [p|].
    + destruct (deref (library w) p) as [book|]; cbn [bind] in H;
        try discriminate H.
      injection H as _ <-. exact HP.
    + cbn [bind] in H. injection H as _ <-. exact HP.
  - intros budget param w param' w' HP H.
    unfold LibraryAction.getAction in H. cbn [LibraryAction.action] in H.
    rewrite display_books_result in H. injection H as _ <-. exact HP.
Qed.

(** X12.  Every book the program stores went through the reader: when the
    books at the start of a run have a title and an author of letters,
    digits and spaces and a year of four digits, so have all books at its
    end; those of a run of [main], which starts with none, always have. *)
Theorem stored_books_are_valid :
  (forall (budget : nat) (bs : list Book.t) (con : Console) (st' : RunState),
      Forall valid_book bs ->
      run budget (mkLibrary bs (actions main_library)) con = Ret st' ->
      Forall valid_book (books (fst (fst st'))))
  /\ (forall (budget : nat) (con : Console) (st' : RunState),
         main budget con = Ret st' ->
         Forall valid_book (books (fst (fst st')))).
Proof.
  split.
  - intros budget bs con st' Hbs H.
    exact (run_loop_keeps (Forall valid_book) budget
             (mkLibrary bs (actions main_library), true, con) st'
             main_registry_keeps_valid Hbs H).
  - intros budget con st' H.
    exact (run_loop_keeps (Forall valid_book) budget
             (main_library, true, con) st'
             main_registry_keeps_valid (Forall_nil _) H).
Qed.

Lemma stored_books_are_valid_witness :
  exists st' : RunState,
    main 6 (terminal (lines ["1"; "Dune"; "Frank-Herbert"; "Frank Herbert";
                             "65"; "1965"; "4"]))
    = Ret st'
    /\ books (fst (fst st')) = [Book.mk "Dune" "Frank Herbert" "1965"]
    /\ Forall valid_book (books (fst (fst st'))).
Proof.
  eexists. split; [vm_compute; reflexivity|]. split; [reflexivity|].
  apply (proj2 stored_books_are_valid 6%nat
           (terminal (lines ["1"; "Dune"; "Frank-Herbert"; "Frank Herbert";
                             "65"; "1965"; "4"]))).
  vm_compute. reflexivity.
Defined.

(** ** Searching and adding through the menu *)

(** X14.  "Search book", given a title line that the reader lets in and one
    more character for the enter key, reports the first stored book with
    exactly that title, as one table row, and "Book not found." when there
    is none.  It leaves the library and its argument as they are. *)
Theorem search_book_reports :
  forall (budget : nat) (param : list Book.t) (w : World)
         (title : string) (key : ascii) (rest : string),
    cin (console w)
    = mkIstream (title ++ String newline (String key rest)) false false ->
    regex_match title name_pattern = true ->
    search_book (S budget) param w
    = Ret (param,
           mkWorld (library w) (running w)
             (mkConsole (mkIstream rest false false)
                (cout (console w)
                   ++ [Clear; Text "Enter book title: "; Clear]
                   ++ search_report (find (has_title title) (books (library w)))
                   ++ [press_enter_text]))).
Proof.
  intros budget param w title key rest Hcin Hre.
  destruct (proj1 (regex_match_name title) Hre) as [_ Hchars].
  unfold search_book.
  rewrite (getValidatedString_accepts "Enter book title: " name_pattern budget
             (clearScreen (console w)) title (String key rest));
    [| cbn [clearScreen cin]; exact Hcin | now apply is_line_name | exact Hre].
  cbn [bind]. unfold findBook.
  pose proof (findBook_from_find title (books (library w)) 0) as Hfind.
  destruct (findBook_from title (books (library w)) 0) as [p|] eqn:Hp.
  - rewrite Nat.sub_0_r in Hfind. unfold deref. rewrite Hfind.
    apply findBook_from_some in Hp as [j [-> [[b [Hb _]] _]]].
    cbn [Nat.add] in Hfind. rewrite Hb in Hfind. rewrite <- Hfind.
    cbn [bind search_report].
    unfold press_enter, print, clearScreen, with_cin, get, press_enter_text.
    cbn [cin cout good eofbit failbit negb andb pending].
    do 3 f_equal. now rewrite <- !app_assoc.
  - rewrite <- Hfind. cbn [bind search_report].
    unfold press_enter, print, clearScreen, with_cin, get, press_enter_text.
    cbn [cin cout good eofbit failbit negb andb pending].
    do 3 f_equal. now rewrite <- !app_assoc.
Qed.

Lemma search_book_reports_witness :
  let dune := Book.mk "Dune" "Frank Herbert" "1965" in
  let w := mkWorld (mkLibrary [dune] ["Search book"%string]) true
             (terminal (lines ["dune"; ""])) in
  search_book 1%nat [] w
  = Ret ([],
         mkWorld (library w) true
           (mkConsole (mkIstream "" false false)
              [Clear; Text "Enter book title: "; Clear;
               Text ("Book not found." ++ endl); press_enter_text])).
Proof.
  intros dune w.
  apply (search_book_reports 0 [] w "dune" newline "").
  - reflexivity.
  - reflexivity.
Defined.

(** X15.  Adding through the menu: the choice 1 and three lines that the
    reader lets in, typed one after the other, store exactly the book of
    these three fields, at the end of the books; the loop goes on, and the
    rest of the input is left for it. *)
Theorem add_through_menu :
  forall (budget : nat) (bs : list Book.t) (flag : bool) (con : Console)
         (title author year rest : string),
    cin con = mkIstream (lines ["1"; title; author; year] ++ rest) false false ->
    regex_match title name_pattern = true ->
    regex_match author name_pattern = true ->
    String.length year = 4%nat ->
    all_chars isdigit year = true ->
    exists con' : Console,
      menu_iteration (S budget) (mkLibrary bs (actions main_library), flag, con)
      = Ret (true,
             (mkLibrary (bs ++ [Book.mk title author year])
                (actions main_library), flag, con'))
      /\ cin con' = mkIstream rest false false.
Proof.
  intros budget bs flag con title author year rest Hcin Ht Ha Hlen Hdigits.
  set (lib := mkLibrary bs (actions main_library)).
  assert (Hfits : size (actions lib) + 1 < SIZE_MOD) by reflexivity.
  assert (Hyear : regex_match year year_pattern = true)
    by (apply regex_match_year; now split).
  rewrite lines_cons_append in Hcin.
  unfold menu_iteration.
  rewrite (displayMenu_menu lib _ Hfits).
  rewrite (read_choice_numeral lib Hfits budget 0 _ 1 newline
             (lines [title; author; year] ++ rest));
    [| cbn [clearScreen cin]; exact Hcin | reflexivity
     | unfold INT_MAX; lia].
  change ((1 <=? 1) && (1 <=? size (actions lib) + 1)) with true.
  cbn [bind].
  change (to_size_t 1 =? size_add (size (actions lib)) 1) with false.
  change (nth_error (actions lib) (Z.to_nat (to_size_t (1 - 1))))
    with (Some (LibraryAction.mk "Add a book" add_a_book)).
  unfold call, LibraryAction.getAction. cbn [LibraryAction.action].
  unfold add_a_book. cbn [console].
  erewrite getBookFromInput_entry;
    [| cbn [clearScreen cin]; reflexivity | exact Ht | exact Ha
     | now apply is_line_digits | exact Hyear].
  cbn [bind]. eexists. split; [reflexivity | reflexivity].
Qed.

Lemma add_through_menu_witness :
  exists con' : Console,
    menu_iteration 1
      (main_library, true,
       terminal (lines ["1"; "Dune"; "Frank Herbert"; "1965"] ++ "3"))
    = Ret (true,
           (mkLibrary ([] ++ [Book.mk "Dune" "Frank Herbert" "1965"])
              (actions main_library), true, con'))
    /\ cin con' = mkIstream "3" false false.
Proof.
  apply (add_through_menu 0 [] true
           (terminal (lines ["1"; "Dune"; "Frank Herbert"; "1965"] ++ "3"))
           "Dune" "Frank Herbert" "1965" "3").
  - reflexivity.
  - reflexivity.
  - reflexivity.
  - reflexivity.
  - reflexivity.
Defined.

(** ** A sign before the choice *)

Lemma extract_int_signed (old : Z) (negative : bool) (ds : string) (c : ascii)
    (rest : string) :
  digits_only ds = true ->
  isdigit c = false ->
  numeral_value 0 ds <= INT_MAX ->
  extract_int old
    (mkIstream (String (if negative then "-" else "+")%char
                  (ds ++ String c rest)) false false)
  = (if negative then - numeral_value 0 ds else numeral_value 0 ds,
     mkIstream (String c rest) false false).
Proof.
  intros Hds Hc Hmax.
  destruct (digits_only_inv ds Hds) as [d [ds' [-> [Hd Hds']]]].
  assert (Hall : all_chars isdigit (String d ds') = true)
    by (simpl; now rewrite Hd, Hds').
  pose proof (numeral_value_nonneg _ 0 ltac:(lia) Hall) as Hpos.
  unfold extract_int. cbn [good eofbit failbit negb andb pending].
  assert (Hsign : read_sign (String (if negative then "-" else "+")%char
                               (String d ds' ++ String c rest))
                  = (negative, (String d ds' ++ String c rest)%string))
    by (destruct negative; reflexivity).
  assert (Hskip : skipws (String (if negative then "-" else "+")%char
                            (String d ds' ++ String c rest))
                  = String (if negative then "-" else "+")%char
                      (String d ds' ++ String c rest))
    by (destruct negative; reflexivity).
  rewrite Hskip, Hsign, (read_digits_stop _ _ _ Hall Hc).
  cbn [String.eqb].
  set (v := if negative then - numeral_value 0 (String d ds')
            else numeral_value 0 (String d ds')).
  assert (Hv : INT_MIN <= v <= INT_MAX)
    by (subst v; unfold INT_MIN, INT_MAX in *; destruct negative; lia).
  rewrite (proj2 (Z.ltb_ge _ _) (proj1 Hv)), (proj2 (Z.ltb_ge _ _) (proj2 Hv)).
  reflexivity.
Qed.

(** X16.  A plus sign before the numeral changes nothing: the choice is
    read, accepted or turned down as without it.  A numeral with a minus
    sign is read as a negative number and turned down, zero with it. *)
Theorem signed_choice :
  forall (lib : Library LibraryAction.t) (budget : nat) (c0 z : Z)
         (c : ascii) (rest : string) (out : list Output),
    size (actions lib) + 1 < SIZE_MOD ->
    0 <= z <= INT_MAX ->
    isdigit c = false ->
    read_choice (S budget) lib c0
      (mkConsole (mkIstream (String "+" (decimal z ++ String c rest))
                    false false) out)
    = read_choice (S budget) lib c0
        (mkConsole (mkIstream (decimal z ++ String c rest) false false) out)
    /\ read_choice (S budget) lib c0
         (mkConsole (mkIstream (String "-" (decimal z ++ String c rest))
                       false false) out)
       = read_choice budget lib (- z)
           (mkConsole (mkIstream (String c rest) false false)
              (out ++ refusal lib)).
Proof.
  intros lib budget c0 z c rest out Hfits Hz Hc.
  pose proof (decimal_digits_only z) as Hds.
  pose proof (numeral_value_decimal z (proj1 Hz)) as Hval.
  split.
  - assert (Hread :
      extract_int c0 (mkIstream (String "+" (decimal z ++ String c rest))
                        false false)
      = extract_int c0 (mkIstream (decimal z ++ String c rest) false false)).
    { rewrite (extract_int_signed c0 false (decimal z) c rest Hds Hc)
        by (rewrite Hval; lia).
      now rewrite extract_int_numeral by (rewrite ?Hval; auto; lia). }
    cbn [read_choice print cin]. rewrite Hread. reflexivity.
  - pose proof (extract_int_signed c0 true (decimal z) c rest Hds Hc
                  ltac:(rewrite Hval; lia)) as Hread.
    rewrite Hval in Hread.
    rewrite (read_choice_read lib Hfits budget c0
               (mkConsole (mkIstream (String "-" (decimal z ++ String c rest))
                             false false) out)
               (- z) (mkIstream (String c rest) false false) Hread eq_refl).
    rewrite (proj2 (Z.ltb_lt (- z) 1)) by lia. reflexivity.
Qed.

Lemma signed_choice_witness :
  read_choice 1 main_library 0 (terminal ("+3" ++ endl))
  = read_choice 1 main_library 0 (terminal ("3" ++ endl))
  /\ read_choice 1 main_library 0 (terminal ("-3" ++ endl))
     = read_choice 0 main_library (- 3)
         (mkConsole (mkIstream endl false false) ([] ++ refusal main_library)).
Proof.
  apply (signed_choice main_library 0 0 3 newline "" []).
  - reflexivity.
  - unfold INT_MAX; lia.
  - reflexivity.
Defined.

(** ** The choice, token by token *)

(** A numeral at the front of the input, after white space: a sign or
    none, digits, and a character that is no digit. *)
Lemma extract_int_front (old : Z) (ws : string) (sg : Sign) (ds : string)
    (c : ascii) (rest : string) :
  all_chars isspace ws = true ->
  digits_only ds = true ->
  isdigit c = false ->
  extract_int old
    (mkIstream (ws ++ sign_text sg ++ ds ++ String c rest) false false)
  = if signed sg (numeral_value 0 ds) <? INT_MIN
    then (INT_MIN, mkIstream (String c rest) false true)
    else if INT_MAX <? signed sg (numeral_value 0 ds)
         then (INT_MAX, mkIstream (String c rest) false true)
         else (signed sg (numeral_value 0 ds),
               mkIstream (String c rest) false false).
Proof.
  intros Hws Hds Hc.
  destruct (digits_only_inv ds Hds) as [d [ds' [-> [Hd Hds']]]].
  assert (Hall : all_chars isdigit (String d ds') = true)
    by (simpl; now rewrite Hd, Hds').
  destruct (digit_not_sign d Hd) as [Hminus Hplus].
  unfold extract_int. cbn [good eofbit failbit negb andb pending].
  rewrite (skipws_leading ws _ Hws).
  assert (Hfront :
    exists b0 buf0,
      (sign_text sg ++ String d ds' ++ String c rest)%string = String b0 buf0
      /\ isspace b0 = false
      /\ read_sign (String b0 buf0)
         = (match sg with MinusSign => true | _ => false end,
            (String d ds' ++ String c rest)%string)).
  { destruct sg; cbn [sign_text append].
    - exists d, (ds' ++ String c rest)%string.
      split; [reflexivity|]. split; [exact (digit_not_space d Hd)|].
      cbn [read_sign]. now rewrite Hminus, Hplus.
    - eexists _, _. split; [reflexivity|]. split; reflexivity.
    - eexists _, _. split; [reflexivity|]. split; reflexivity. }
  destruct Hfront as [b0 [buf0 [-> [Hb0 Hsign]]]].
  cbn [skipws]. rewrite Hb0, Hsign, (read_digits_stop _ _ _ Hall Hc).
  cbn [String.eqb]. destruct sg; reflexivity.
Qed.

(** No numeral at the front: the read takes the white space and a sign, if
    there is one, and fails. *)
Lemma extract_int_no_digits (old : Z) (ws : string) (c : ascii) (rest : string) :
  all_chars isspace ws = true ->
  isspace c = false ->
  starts_with_numeral (String c rest) = false ->
  extract_int old (mkIstream (ws ++ String c rest) false false)
  = (0, mkIstream (snd (read_sign (String c rest)))
          (String.eqb (snd (read_sign (String c rest))) "") true).
Proof.
  intros Hws Hc Hnone.
  unfold extract_int. cbn [good eofbit failbit negb andb pending].
  rewrite (skipws_leading ws _ Hws). cbn [skipws]. rewrite Hc.
  unfold starts_with_numeral in Hnone.
  destruct (read_sign (String c rest)) as [negative buf1].
  cbn [snd] in *.
  destruct buf1 as [|d buf2]; cbn [read_digits]; [reflexivity|].
  rewrite Hnone. reflexivity.
Qed.

Section ChoiceTokens.

Variable lib : Library LibraryAction.t.
Hypothesis registry_fits : size (actions lib) + 1 < SIZE_MOD.

Lemma read_choice_front (budget : nat) (c0 : Z) (con : Console) (ws : string)
    (sg : Sign) (ds : string) (c : ascii) (rest : string) :
  cin con = mkIstream (ws ++ sign_text sg ++ ds ++ String c rest) false false ->
  all_chars isspace ws = true ->
  digits_only ds = true ->
  isdigit c = false ->
  read_choice (S budget) lib c0 con
  = if (signed sg (numeral_value 0 ds) <? INT_MIN)
       || (INT_MAX <? signed sg (numeral_value 0 ds))
    then read_choice budget lib
           (if signed sg (numeral_value 0 ds) <? INT_MIN
            then INT_MIN else INT_MAX)
           (mkConsole (mkIstream rest false false) (cout con ++ refusal lib))
    else if (1 <=? signed sg (numeral_value 0 ds))
            && (signed sg (numeral_value 0 ds) <=? size (actions lib) + 1)
         then Ret (signed sg (numeral_value 0 ds),
                   mkConsole (mkIstream rest false false)
                     (cout con ++ [Text "Enter your choice: "]))
         else read_choice budget lib (signed sg (numeral_value 0 ds))
                (mkConsole (mkIstream (String c rest) false false)
                   (cout con ++ refusal lib)).
Proof.
  intros Hcin Hws Hds Hc.
  pose proof (extract_int_front c0 ws sg ds c rest Hws Hds Hc) as Hread.
  rewrite <- Hcin in Hread.
  set (v := signed sg (numeral_value 0 ds)) in *.
  destruct (v <? INT_MIN) eqn:Hlo.
  { cbn [orb].
    exact (read_choice_failed lib registry_fits budget c0 con _ _ Hread eq_refl). }
  destruct (INT_MAX <? v) eqn:Hhi.
  { cbn [orb].
    exact (read_choice_failed lib registry_fits budget c0 con _ _ Hread eq_refl). }
  cbn [orb].
  rewrite (read_choice_read lib registry_fits budget c0 con _ _ Hread eq_refl).
  apply Z.ltb_ge in Hlo, Hhi.
  destruct (Z.lt_ge_cases v 1) as [Hneg | Hpos].
  - rewrite (proj2 (Z.ltb_lt v 1)), (proj2 (Z.leb_gt 1 v)) by lia. reflexivity.
  - rewrite in_range_test by (unfold INT_MAX, SIZE_MOD in *; lia).
    destruct ((1 <=? v) && (v <=? size (actions lib) + 1)); reflexivity.
Qed.

Lemma read_choice_no_digits (budget : nat) (c0 : Z) (con : Console)
    (ws : string) (c : ascii) (rest : string) :
  cin con = mkIstream (ws ++ String c rest) false false ->
  all_chars isspace ws = true ->
  isspace c = false ->
  starts_with_numeral (String c rest) = false ->
  read_choice (S budget) lib c0 con
  = read_choice budget lib 0
      (mkConsole
         (ignore (mkIstream (snd (read_sign (String c rest))) false false))
         (cout con ++ refusal lib)).
Proof.
  intros Hcin Hws Hc Hnone.
  pose proof (extract_int_no_digits c0 ws c rest Hws Hc Hnone) as Hread.
  rewrite <- Hcin in Hread.
  exact (read_choice_failed lib registry_fits budget c0 con _ _ Hread eq_refl).
Qed.

End ChoiceTokens.

(** C2, as the code has it.  With [N] registered actions the inner loop of
    [Library::run] hands on an integer of [1 .. N+1] and nothing else.  The
    read skips white space and takes a numeral, a sign or none and then
    digits, up to the first character that is no digit.

    - A numeral of [1 .. N+1] is the choice, whatever comes after it; the
      one character after it is dropped.
    - Any other numeral that fits [int] (0, [N+2], a negative one) is turned
      down: the menu and the error message come again and the loop reads on
      from the character after the numeral.
    - A numeral that does not fit [int] is turned down as well, and the
      character after it is dropped.
    - Where no numeral is at the front, the entry is turned down and one
      character of it is dropped: the first one, or the one after a sign. *)
Theorem menu_choice_validation :
  forall lib : Library LibraryAction.t,
    size (actions lib) + 1 < SIZE_MOD ->
    (forall (budget : nat) (c0 : Z) (con : Console) (choice : Z)
            (con' : Console),
        read_choice budget lib c0 con = Ret (choice, con') ->
        1 <= choice <= size (actions lib) + 1)
    /\ (forall (budget : nat) (c0 : Z) (con : Console) (ws : string)
               (sg : Sign) (ds : string) (c : ascii) (rest : string),
           cin con
           = mkIstream (ws ++ sign_text sg ++ ds ++ String c rest) false false ->
           all_chars isspace ws = true ->
           digits_only ds = true ->
           isdigit c = false ->
           read_choice (S budget) lib c0 con
           = if (signed sg (numeral_value 0 ds) <? INT_MIN)
                || (INT_MAX <? signed sg (numeral_value 0 ds))
             then read_choice budget lib
                    (if signed sg (numeral_value 0 ds) <? INT_MIN
                     then INT_MIN else INT_MAX)
                    (mkConsole (mkIstream rest false false)
                       (cout con ++ refusal lib))
             else if (1 <=? signed sg (numeral_value 0 ds))
                     && (signed sg (numeral_value 0 ds)
                         <=? size (actions lib) + 1)
                  then Ret (signed sg (numeral_value 0 ds),
                            mkConsole (mkIstream rest false false)
                              (cout con ++ [Text "Enter your choice: "]))
                  else read_choice budget lib (signed sg (numeral_value 0 ds))
                         (mkConsole (mkIstream (String c rest) false false)
                            (cout con ++ refusal lib)))
    /\ (forall (budget : nat) (c0 : Z) (con : Console) (ws : string)
               (c : ascii) (rest : string),
           cin con = mkIstream (ws ++ String c rest) false false ->
           all_chars isspace ws = true ->
           isspace c = false -> isdigit c = false ->
           c <> "-"%char -> c <> "+"%char ->
           read_choice (S budget) lib c0 con
           = read_choice budget lib 0
               (mkConsole (mkIstream rest false false)
                  (cout con ++ refusal lib)))
    /\ (forall (budget : nat) (c0 : Z) (con : Console) (ws : string)
               (sg : Sign) (d : ascii) (rest : string),
           cin con
           = mkIstream (ws ++ sign_text sg ++ String d rest) false false ->
           all_chars isspace ws = true ->
           sg <> NoSign ->
           isdigit d = false ->
           read_choice (S budget) lib c0 con
           = read_choice budget lib 0
               (mkConsole (mkIstream rest false false)
                  (cout con ++ refusal lib)))
    /\ (forall (budget : nat) (c0 : Z) (con : Console) (ws : string)
               (sg : Sign),
           cin con = mkIstream (ws ++ sign_text sg) false false ->
           all_chars isspace ws = true ->
           sg <> NoSign ->
           read_choice (S budget) lib c0 con
           = read_choice budget lib 0
               (mkConsole (mkIstream "" true false)
                  (cout con ++ refusal lib))).
Proof.
  intros lib Hfits. split; [| split; [| split; [| split]]].
  - exact (read_choice_range lib Hfits).
  - exact (read_choice_front lib Hfits).
  - intros budget c0 con ws c rest Hcin Hws Hspace Hdigit Hminus Hplus.
    apply Ascii.eqb_neq in Hminus, Hplus.
    rewrite (read_choice_no_digits lib Hfits budget c0 con ws c rest Hcin Hws
               Hspace);
      [| unfold starts_with_numeral; cbn [read_sign];
         rewrite Hminus, Hplus; exact Hdigit].
    cbn [read_sign]. rewrite Hminus, Hplus. reflexivity.
  - intros budget c0 con ws sg d rest Hcin Hws Hsg Hd.
    destruct sg as [| |]; [now elim Hsg | |]; cbn [sign_text append] in Hcin.
    + rewrite (read_choice_no_digits lib Hfits budget c0 con ws "+"
                 (String d rest) Hcin Hws eq_refl);
        [reflexivity | unfold starts_with_numeral; exact Hd].
    + rewrite (read_choice_no_digits lib Hfits budget c0 con ws "-"
                 (String d rest) Hcin Hws eq_refl);
        [reflexivity | unfold starts_with_numeral; exact Hd].
  - intros budget c0 con ws sg Hcin Hws Hsg.
    destruct sg as [| |]; [now elim Hsg | |]; cbn [sign_text] in Hcin.
    + rewrite (read_choice_no_digits lib Hfits budget c0 con ws "+" ""
                 Hcin Hws eq_refl eq_refl).
      reflexivity.
    + rewrite (read_choice_no_digits lib Hfits budget c0 con ws "-" ""
                 Hcin Hws eq_refl eq_refl).
      reflexivity.
Qed.

Lemma menu_choice_validation_witness :
  1 <= 2 <= size (actions main_library) + 1
  /\ read_choice 1 main_library 0 (terminal ("2abc" ++ endl))
     = Ret (2, mkConsole (mkIstream ("bc" ++ endl) false false)
                 [Text "Enter your choice: "])
  /\ read_choice 1 main_library 0 (terminal ("+2abc" ++ endl))
     = Ret (2, mkConsole (mkIstream ("bc" ++ endl) false false)
                 [Text "Enter your choice: "])
  /\ read_choice 1 main_library 0 (terminal (" 02" ++ endl ++ "Dune"))
     = Ret (2, mkConsole (mkIstream "Dune" false false)
                 [Text "Enter your choice: "])
  /\ read_choice 2 main_library 0 (terminal ("0" ++ endl ++ "3" ++ endl))
     = read_choice 1 main_library 0
         (mkConsole (mkIstream (endl ++ "3" ++ endl) false false)
            (refusal main_library))
  /\ read_choice 2 main_library 0 (terminal ("5" ++ endl ++ "3" ++ endl))
     = read_choice 1 main_library 5
         (mkConsole (mkIstream (endl ++ "3" ++ endl) false false)
            (refusal main_library))
  /\ read_choice 2 main_library 0 (terminal ("-1" ++ endl ++ "3" ++ endl))
     = read_choice 1 main_library (- 1)
         (mkConsole (mkIstream (endl ++ "3" ++ endl) false false)
            (refusal main_library))
  /\ read_choice 2 main_library 0 (terminal ("2147483648" ++ endl ++ "3" ++ endl))
     = read_choice 1 main_library INT_MAX
         (mkConsole (mkIstream ("3" ++ endl) false false)
            (refusal main_library))
  /\ read_choice 2 main_library 0 (terminal (" exit" ++ endl))
     = read_choice 1 main_library 0
         (mkConsole (mkIstream ("xit" ++ endl) false false)
            (refusal main_library))
  /\ read_choice 2 main_library 0 (terminal ("-x3" ++ endl))
     = read_choice 1 main_library 0
         (mkConsole (mkIstream ("3" ++ endl) false false)
            (refusal main_library))
  /\ read_choice 2 main_library 0 (terminal "+")
     = read_choice 1 main_library 0
         (mkConsole (mkIstream "" true false) (refusal main_library)).
Proof.
  assert (Hfits : size (actions main_library) + 1 < SIZE_MOD) by reflexivity.
  destruct (menu_choice_validation main_library Hfits)
    as [Hrange [Hnumeral [Hother [Hsign Hend]]]].
  assert (Haccepted :
            read_choice 1 main_library 0 (terminal ("2abc" ++ endl))
            = Ret (2, mkConsole (mkIstream ("bc" ++ endl) false false)
                        [Text "Enter your choice: "])).
  { exact (eq_trans
             (Hnumeral 0%nat 0 (terminal ("2abc" ++ endl)) ""%string NoSign
                "2"%string "a"%char ("bc" ++ endl)%string
                eq_refl eq_refl eq_refl eq_refl)
             eq_refl). }
  split; [exact (Hrange _ _ _ _ _ Haccepted)|].
  split; [exact Haccepted|].
  split.
  { exact (eq_trans
             (Hnumeral 0%nat 0 (terminal ("+2abc" ++ endl)) ""%string PlusSign
                "2"%string "a"%char ("bc" ++ endl)%string
                eq_refl eq_refl eq_refl eq_refl)
             eq_refl). }
  split.
  { exact (eq_trans
             (Hnumeral 0%nat 0 (terminal (" 02" ++ endl ++ "Dune")) " "%string
                NoSign "02"%string newline "Dune"%string
                eq_refl eq_refl eq_refl eq_refl)
             eq_refl). }
  split.
  { exact (eq_trans
             (Hnumeral 1%nat 0 (terminal ("0" ++ endl ++ "3" ++ endl)) ""%string
                NoSign "0"%string newline ("3" ++ endl)%string
                eq_refl eq_refl eq_refl eq_refl)
             eq_refl). }
  split.
  { exact (eq_trans
             (Hnumeral 1%nat 0 (terminal ("5" ++ endl ++ "3" ++ endl)) ""%string
                NoSign "5"%string newline ("3" ++ endl)%string
                eq_refl eq_refl eq_refl eq_refl)
             eq_refl). }
  split.
  { exact (eq_trans
             (Hnumeral 1%nat 0 (terminal ("-1" ++ endl ++ "3" ++ endl)) ""%string
                MinusSign "1"%string newline ("3" ++ endl)%string
                eq_refl eq_refl eq_refl eq_refl)
             eq_refl). }
  split.
  { exact (eq_trans
             (Hnumeral 1%nat 0
                (terminal ("2147483648" ++ endl ++ "3" ++ endl)) ""%string
                NoSign "2147483648"%string newline ("3" ++ endl)%string
                eq_refl eq_refl eq_refl eq_refl)
             eq_refl). }
  split.
  { apply (Hother 1%nat 0 (terminal (" exit" ++ endl)) " "%string "e"%char
             ("xit" ++ endl)%string).
    - reflexivity.
    - reflexivity.
    - reflexivity.
    - reflexivity.
    - discriminate.
    - discriminate. }
  split.
  { apply (Hsign 1%nat 0 (terminal ("-x3" ++ endl)) ""%string MinusSign
             "x"%char ("3" ++ endl)%string).
    - reflexivity.
    - reflexivity.
    - discriminate.
    - reflexivity. }
  apply (Hend 1%nat 0 (terminal "+") ""%string PlusSign).
  - reflexivity.
  - reflexivity.
  - discriminate.
Defined.
